(** * bootstrap.py: the self-updating launcher of Spectra Processing

    A shallow embedding of [src/bootstrap.py].  The script is a
    sequence of effects on three things: the file system under the user's
    Documents folder, the GitHub API, and child processes.  The file
    system is kept as a tree in the state; the API and the children are
    an oracle ([Env]) that the script cannot influence; every call that
    leaves the process is logged in a trace, so that statements such as
    "no network call was made" can be read off the final state. *)

From Stdlib Require Import List String Ascii ZArith Bool.
Import ListNotations.
Open Scope string_scope.
Open Scope list_scope.

Set Warnings "-register-all".

(** ** Python values

    [json.loads] yields [None], booleans, numbers, strings, lists and
    dicts; these are also the only values [main] ever holds in a variable
    besides paths.  Floats do not occur in the records the launcher reads
    and are left out. *)

Inductive pyval : Type :=
| PNone
| PBool (b : bool)
| PInt (z : Z)
| PStr (s : string)
| PList (l : list pyval)
| PDict (items : list (string * pyval)).

(** Association lists: dict items and directory listings.  The first
    binding of a key is the one that counts. *)

Fixpoint assoc {A : Type} (k : string) (l : list (string * A)) : option A :=
  match l with
  | [] => None
  | (k', v) :: l' => if String.eqb k k' then Some v else assoc k l'
  end.

(** Replace the first binding of [k], or add one at the end. *)
Fixpoint assoc_set {A : Type} (k : string) (v : A) (l : list (string * A))
  : list (string * A) :=
  match l with
  | [] => [(k, v)]
  | (k', v') :: l' =>
      if String.eqb k k' then (k, v) :: l' else (k', v') :: assoc_set k v l'
  end.

(** [bool(v)] *)
Definition truthy (v : pyval) : bool :=
  match v with
  | PNone => false
  | PBool b => b
  | PInt z => negb (Z.eqb z 0)
  | PStr s => negb (String.eqb s "")
  | PList l => match l with [] => false | _ => true end
  | PDict items => match items with [] => false | _ => true end
  end.

(** [a == b].  Exact on [None] and on strings, which is what a commit SHA
    is; dicts are compared as sets of items with distinct keys, as
    [json.loads] builds them. *)
Fixpoint py_eq (a b : pyval) {struct a} : bool :=
  match a, b with
  | PNone, PNone => true
  | PBool x, PBool y => Bool.eqb x y
  | PBool x, PInt z => Z.eqb z (if x then 1 else 0)
  | PInt z, PBool x => Z.eqb z (if x then 1 else 0)
  | PInt x, PInt y => Z.eqb x y
  | PStr x, PStr y => String.eqb x y
  | PList xs, PList ys =>
      (fix all2 (xs ys : list pyval) {struct xs} : bool :=
         match xs, ys with
         | [], [] => true
         | x :: xs', y :: ys' => py_eq x y && all2 xs' ys'
         | _, _ => false
         end) xs ys
  | PDict xs, PDict ys =>
      Nat.eqb (List.length xs) (List.length ys) &&
      (fix sub (xs : list (string * pyval)) {struct xs} : bool :=
         match xs with
         | [] => true
         | (k, v) :: xs' =>
             match assoc k ys with
             | Some v' => py_eq v v' && sub xs'
             | None => false
             end
         end) xs
  | _, _ => false
  end.

(** ** Paths and the file system

    A path is the list of its components below the root. *)

Definition path : Type := list string.

(** [str(p)] *)
Definition str (p : path) : string := "/" ++ String.concat "/" p.

(** [Path(s)], POSIX flavour: split at slashes, drop empty and "."
    components. *)
Fixpoint components (s : string) (cur : string) : list string :=
  match s with
  | EmptyString => [cur]
  | String c s' =>
      if Ascii.eqb c "/"%char then cur :: components s' ""
      else components s' (cur ++ String c EmptyString)
  end.

Definition Path (s : string) : path :=
  filter (fun c => negb (String.eqb c "" || String.eqb c ".")) (components s "").

(** [p / s].  Every right operand in the script is relative: a literal
    name or a commit SHA. *)
Definition div (p : path) (s : string) : path := p ++ Path s.
Notation "p // s" := (div p s) (at level 40, left associativity).

(** What a file holds.  A file is read back only through [json.loads], so
    its text is represented by what [json.loads] makes of it: [Json v] is
    a document that parses to [v] (and what [json.dumps v] writes), [Raw]
    is anything else. *)
Inductive data : Type :=
| Raw (s : string)
| Json (v : pyval).

Inductive node : Type :=
| File (d : data)
| Dir (entries : list (string * node)).

Definition child (c : string) (es : list (string * node)) : node :=
  match assoc c es with Some n => n | None => Dir [] end.

Fixpoint lookup (n : node) (p : path) : option node :=
  match p with
  | [] => Some n
  | c :: p' =>
      match n with
      | File _ => None
      | Dir es =>
          match assoc c es with
          | Some n' => lookup n' p'
          | None => None
          end
      end
  end.

(** [p.exists()] and [p.is_dir()] *)
Definition exists_ (fs : node) (p : path) : bool :=
  match lookup fs p with Some _ => true | None => false end.

Definition is_dir (n : node) : bool :=
  match n with Dir _ => true | File _ => false end.

(** Put [x] at [p], creating missing directories on the way; no result
    when a file is in the way. *)
Fixpoint put (n : node) (p : path) (x : node) : option node :=
  match p with
  | [] => Some x
  | c :: p' =>
      match n with
      | File _ => None
      | Dir es =>
          match put (child c es) p' x with
          | Some n' => Some (Dir (assoc_set c n' es))
          | None => None
          end
      end
  end.

(** [p.mkdir(parents=True, exist_ok=True)] *)
Fixpoint mkdirs (n : node) (p : path) : option node :=
  match p, n with
  | _, File _ => None
  | [], Dir _ => Some n
  | c :: p', Dir es =>
      match mkdirs (child c es) p' with
      | Some n' => Some (Dir (assoc_set c n' es))
      | None => None
      end
  end.

(** Create or truncate a regular file: the parent must be a directory and
    the target must not be one. *)
Definition write_file (fs : node) (p : path) (d : data) : option node :=
  match lookup fs (removelast p) with
  | Some (Dir _) =>
      match lookup fs p with
      | Some (Dir _) => None
      | _ => put fs p (File d)
      end
  | _ => None
  end.

(** ** The world outside the process *)

(** Text built by an f-string: literal pieces and formatted values, left
    unrendered. *)
Inductive frag : Type :=
| Lit (s : string)
| Fmt (v : pyval)
| FmtPath (p : path).

Definition text : Type := list frag.

(** ** Exceptions *)

Inductive exn : Type :=
| URLError                      (* urlopen failed: network, HTTP status, timeout *)
| JSONDecodeError               (* json.loads on something that is not JSON *)
| KeyError
| IndexError
| TypeError
| RuntimeError (msg : text)
| BadZipFile
| OSError                       (* FileExistsError, NotADirectoryError, IsADirectoryError, ... *)
| CalledProcessError            (* subprocess.run(check=True), non-zero exit *)
| SystemExit (msg : text).

Inductive result (A : Type) : Type :=
| Ok (a : A)
| Raise (e : exn).
Arguments Ok {A} a.
Arguments Raise {A} e.

(** [v[k]] for the two kinds of subscript the script uses. *)
Inductive key : Type :=
| KInt (i : Z)
| KStr (s : string).

Definition subscript (v : pyval) (k : key) : result pyval :=
  match v, k with
  | PDict items, KStr s =>
      match assoc s items with Some x => Ok x | None => Raise KeyError end
  | PDict _, KInt _ => Raise KeyError
  | PList l, KInt i =>
      let n := Z.of_nat (List.length l) in
      let j := if Z.ltb i 0 then (i + n)%Z else i in
      if Z.ltb j 0 then Raise IndexError
      else match nth_error l (Z.to_nat j) with
           | Some x => Ok x
           | None => Raise IndexError
           end
  | PStr s, KInt i =>
      let n := Z.of_nat (String.length s) in
      let j := if Z.ltb i 0 then (i + n)%Z else i in
      if Z.ltb j 0 then Raise IndexError
      else match String.get (Z.to_nat j) s with
           | Some c => Ok (PStr (String c EmptyString))
           | None => Raise IndexError
           end
  | _, _ => Raise TypeError
  end.

(** What a zipball download turns out to be when [zipfile.ZipFile] opens
    it: not an archive, or the entries it unpacks to, in the order the
    scratch directory lists them. *)
Inductive archive : Type :=
| NotAZip
| ZipOf (entries : list (string * node)).

(** The child processes the script starts. *)
Inductive command : Type :=
| CmdVenv (venv_dir : path)             (* sys.executable -m venv <venv_dir> *)
| CmdPipUpgrade (py : path)             (* <py> -m pip install --upgrade pip setuptools wheel *)
| CmdPipInstall (py : path) (cwd : path) (* <py> -m pip install . , in cwd *)
| CmdRun (py : path).                   (* <py> followed by RUN_COMMAND *)

Inductive event : Type :=
| EvHttpJson (url : text)               (* urlopen in http_json *)
| EvDownload (url : text)               (* urlopen in download_bytes *)
| EvExtract                             (* ZipFile.extractall into the scratch directory *)
| EvCopytree (dst : path)               (* shutil.copytree into the store *)
| EvSubprocess (c : command)
| EvWriteCurrent (sha : pyval) (install_path : path)
| EvPrint (msg : text).

(** What the script cannot decide: who runs it and where, what GitHub
    answers, how the child processes end. *)
Record Env : Type := {
  home : path;                          (* Path.home() *)
  windows : bool;                       (* os.name == "nt" *)
  api_reply : text -> option data;      (* body of an API response; None: urlopen raises *)
  zipball_reply : text -> option archive;
  returncode : command -> Z
}.

Record World : Type := {
  fs : node;
  trace : list event                    (* oldest first *)
}.

(** ** The monad of the script: state and exceptions *)

Definition M (A : Type) : Type := World -> result A * World.

Definition ret {A : Type} (a : A) : M A := fun w => (Ok a, w).

Definition raise {A : Type} (e : exn) : M A := fun w => (Raise e, w).

Definition bind {A B : Type} (m : M A) (f : A -> M B) : M B :=
  fun w =>
    match m w with
    | (Ok a, w') => f a w'
    | (Raise e, w') => (Raise e, w')
    end.

Notation "x <- m ;; k" := (bind m (fun x => k))
  (at level 61, m at next level, right associativity).
Notation "m ;;; k" := (bind m (fun _ => k))
  (at level 61, right associativity).

Definition lift {A : Type} (r : result A) : M A := fun w => (r, w).

Definition get_fs : M node := fun w => (Ok (fs w), w).

Definition set_fs (n : node) : M unit :=
  fun w => (Ok tt, {| fs := n; trace := trace w |}).

Definition emit (e : event) : M unit :=
  fun w => (Ok tt, {| fs := fs w; trace := trace w ++ [e] |}).

(** A file-system update that raises [OSError] when it cannot be done. *)
Definition update_fs (f : node -> option node) : M unit :=
  n <- get_fs ;;
  match f n with
  | Some n' => set_fs n'
  | None => raise OSError
  end.

Definition print (msg : text) : M unit := emit (EvPrint msg).

(** ** The script *)

Record Args : Type := {
  no_update : bool;                     (* --no-update *)
  force : bool                          (* --force *)
}.

Definition GITHUB_OWNER : string := "marksocaciu".
Definition GITHUB_REPO : string := "Spectra-Processing-Tool".
Definition HARDCODE_DEFAULT_BRANCH : option string := None.

Section Bootstrap.

Variable E : Env.

Definition DOCS_ROOT : path := home E // "Documents" // "Spectra Processing".
Definition DATA_DIR : path := DOCS_ROOT // "Executable".
Definition APP_ROOT : path := DOCS_ROOT // "App".
Definition VERSIONS_DIR : path := APP_ROOT // "versions".
Definition CURRENT_FILE : path := APP_ROOT // "current.json".

Definition is_windows : bool := windows E.

Definition http_json (url : text) : M pyval :=
  emit (EvHttpJson url) ;;;
  match api_reply E url with
  | None => raise URLError
  | Some (Raw _) => raise JSONDecodeError
  | Some (Json v) => ret v
  end.

Definition download_bytes (url : text) : M archive :=
  emit (EvDownload url) ;;;
  match zipball_reply E url with
  | None => raise URLError
  | Some zip_bytes => ret zip_bytes
  end.

Definition ensure_dirs : M unit :=
  update_fs (fun n => mkdirs n DATA_DIR) ;;;
  update_fs (fun n => mkdirs n VERSIONS_DIR) ;;;
  update_fs (fun n => mkdirs n APP_ROOT).

(** The result is [PNone] for Python's [None]. *)
Definition read_current : M pyval :=
  n <- get_fs ;;
  if negb (exists_ n CURRENT_FILE) then ret PNone
  else match lookup n CURRENT_FILE with
       | Some (File (Json v)) => ret v
       | Some (File (Raw _)) => raise JSONDecodeError
       | _ => raise OSError
       end.

Definition write_current (commit_sha : pyval) (install_path : path) : M unit :=
  emit (EvWriteCurrent commit_sha install_path) ;;;
  update_fs (fun n =>
    write_file n CURRENT_FILE
      (Json (PDict [("sha", commit_sha); ("path", PStr (str install_path))]))).

(** The scratch directory is fresh, outside the application's tree, and
    removed when the [with] block is left, so what is unpacked into it is
    kept as a value: the listing of [tmp]. *)
Definition extract_zip (zip_bytes : archive) : M (list (string * node)) :=
  match zip_bytes with
  | NotAZip => raise BadZipFile
  | ZipOf entries => emit EvExtract ;;; ret entries
  end.

Definition repo_api_url (p : text) : text :=
  Lit "https://api.github.com/repos/" :: Lit GITHUB_OWNER :: Lit "/"
    :: Lit GITHUB_REPO :: p.

Definition get_default_branch : M pyval :=
  match HARDCODE_DEFAULT_BRANCH with
  | Some b => if truthy (PStr b) then ret (PStr b)
              else (repo <- http_json (repo_api_url []) ;;
                    lift (subscript repo (KStr "default_branch")))
  | None => repo <- http_json (repo_api_url []) ;;
            lift (subscript repo (KStr "default_branch"))
  end.

Definition get_latest_commit_sha (branch : pyval) : M pyval :=
  commits <- http_json
    (repo_api_url [Lit "/commits?sha="; Fmt branch; Lit "&per_page=1"]) ;;
  if negb (truthy commits) then
    raise (RuntimeError [Lit "No commits found for branch '"; Fmt branch; Lit "'."])
  else
    c <- lift (subscript commits (KInt 0)) ;;
    lift (subscript c (KStr "sha")).

(** [shutil.copytree(src, dst)], [src] being a tree in the scratch
    directory: [dst] must not exist, its parents are created. *)
Definition copytree (src : node) (dst : path) : M unit :=
  emit (EvCopytree dst) ;;;
  update_fs (fun n => if exists_ n dst then None else put n dst src).

Definition install_from_commit_zip (sha : pyval) : M path :=
  match sha with
  | PStr s =>
      let target := VERSIONS_DIR // s in
      n <- get_fs ;;
      if exists_ n target then ret target
      else
        zip_bytes <- download_bytes (repo_api_url [Lit "/zipball/"; Fmt sha]) ;;
        tmp <- extract_zip zip_bytes ;;
        let roots := filter (fun e => is_dir (snd e)) tmp in
        match roots with
        | [] => raise (RuntimeError [Lit "Zipball did not contain an extracted directory."])
        | extracted_root :: _ =>
            copytree (snd extracted_root) target ;;;
            ret target
        end
  | _ => raise TypeError               (* VERSIONS_DIR / sha *)
  end.

(** Where the interpreter of an environment is. *)
Definition interpreter (venv_dir : path) : path :=
  venv_dir // (if is_windows then "Scripts/python.exe" else "bin/python").

(** [subprocess.run(cmd, check=True)].  Of what a child leaves on disk
    the script only ever looks at the interpreter that [venv] creates;
    pip writes inside the environment and nowhere the script reads. *)
Definition subprocess_run (c : command) : M unit :=
  emit (EvSubprocess c) ;;;
  if Z.eqb (returncode E c) 0 then
    match c with
    | CmdVenv venv_dir =>
        n <- get_fs ;;
        match put n (interpreter venv_dir) (File (Raw "")) with
        | Some n' => set_fs n'
        | None => raise CalledProcessError
        end
    | _ => ret tt
    end
  else raise CalledProcessError.

Definition ensure_venv (project_dir : path) : M path :=
  let venv_dir := project_dir // ".venv" in
  let py := interpreter venv_dir in
  n <- get_fs ;;
  (if negb (exists_ n py) then
     subprocess_run (CmdVenv venv_dir) ;;;
     subprocess_run (CmdPipUpgrade py)
   else ret tt) ;;;
  ret py.

Definition pip_install_project (py : path) (project_dir : path) : M unit :=
  subprocess_run (CmdPipInstall py project_dir).

(** [shutil.copy2(src, dst)]; [dst] is not an existing directory where
    the script calls it. *)
Definition copy2 (src dst : path) : M unit :=
  n <- get_fs ;;
  match lookup n src with
  | Some (File d) => update_fs (fun n => write_file n dst d)
  | _ => raise OSError
  end.

Definition seed_data_if_missing (installed_project_dir : path) : M unit :=
  let dest := DATA_DIR // "fluorophor_data.txt" in
  n <- get_fs ;;
  if exists_ n dest then ret tt
  else
    let candidate1 := installed_project_dir // "src" // "spectra_processing"
                        // "resources" // "fluorophor_data.txt" in
    let candidate2 := installed_project_dir // "fluorophor_data.txt" in
    let src := if exists_ n candidate1 then candidate1 else candidate2 in
    if exists_ n src then
      copy2 src dest ;;;
      print [Lit "Seeded data file: "; FmtPath dest]
    else
      print [Lit "WARNING: Could not find fluorophor_data.txt to seed user data directory."].

(** [subprocess.call]: the exit status is the result. *)
Definition run_app (py : path) : M Z :=
  emit (EvSubprocess (CmdRun py)) ;;;
  ret (returncode E (CmdRun py)).

(** [args.force or (current_sha != latest_sha) or (not current_path) or
    (not current_path.exists())]; a [Path] is always true, so
    [not current_path] holds for [None] only. *)
Definition needs_install (force_ : bool) (current_sha latest_sha : pyval)
    (current_path : option path) (n : node) : bool :=
  force_
  || negb (py_eq current_sha latest_sha)
  || match current_path with None => true | Some _ => false end
  || match current_path with None => true | Some p => negb (exists_ n p) end.

Definition no_installed_version : text :=
  [Lit "No installed version found. Run without --no-update to install the latest commit."].

(** The body of [if needs_install:] in [main]. *)
Definition install_latest (branch latest_sha : pyval) : M Z :=
  print [Lit "Installing latest commit "; Fmt latest_sha;
         Lit " from branch '"; Fmt branch; Lit "'..."] ;;;
  installed_dir <- install_from_commit_zip latest_sha ;;
  py <- ensure_venv installed_dir ;;
  pip_install_project py installed_dir ;;;
  seed_data_if_missing installed_dir ;;;
  write_current latest_sha installed_dir ;;;
  run_app py.

(** The two lines that end both ways of running what is installed:
    [py = ensure_venv(...)] and [return run_app(py)]. *)
Definition launch (installed_dir : path) : M Z :=
  py <- ensure_venv installed_dir ;;
  run_app py.

(** [main] once the update check has found nothing to install. *)
Definition already_up_to_date (current_sha : pyval) (current_path : option path)
  : M Z :=
  print [Lit "Already up-to-date at commit "; Fmt current_sha; Lit "."] ;;;
  match current_path with
  | Some installed_dir => launch installed_dir
  | None => raise TypeError             (* ensure_venv(None) *)
  end.

(** [main] from [if not args.no_update:] on. *)
Definition decide_and_run (args : Args) (current_sha : pyval)
    (current_path : option path) : M Z :=
  if negb (no_update args) then
    branch <- get_default_branch ;;
    latest_sha <- get_latest_commit_sha branch ;;
    n <- get_fs ;;
    if needs_install (force args) current_sha latest_sha current_path n then
      install_latest branch latest_sha
    else
      already_up_to_date current_sha current_path
  else
    n <- get_fs ;;
    match current_path with
    | None => raise (SystemExit no_installed_version)
    | Some p =>
        if negb (exists_ n p) then raise (SystemExit no_installed_version)
        else launch p
    end.

Definition main (args : Args) : M Z :=
  ensure_dirs ;;;
  current <- read_current ;;
  current_sha <- (if truthy current then lift (subscript current (KStr "sha"))
                  else ret PNone) ;;
  current_path <- (if truthy current then
                     p <- lift (subscript current (KStr "path")) ;;
                     match p with
                     | PStr s => ret (Some (Path s))
                     | _ => raise TypeError
                     end
                   else ret None) ;;
  decide_and_run args current_sha current_path.

End Bootstrap.

(** ** Sample worlds

    A user [u] on a POSIX machine; GitHub reports branch [main] at commit
    [abc123]; the zipball unpacks to a stray file and two directories,
    the first of which carries a data file; every child process succeeds
    and the application exits with status 7. *)

Definition demo_zip : list (string * node) :=
  [("README", File (Raw "read me"));
   ("repo-abc123", Dir [("fluorophor_data.txt", File (Raw "seed"))]);
   ("other", Dir [])].

Definition demo_env : Env := {|
  home := ["home"; "u"];
  windows := false;
  api_reply := fun url =>
    match url with
    | [_; _; _; _] => Some (Json (PDict [("default_branch", PStr "main")]))
    | _ :: _ :: _ :: _ :: Lit "/commits?sha=" :: _ =>
        Some (Json (PList [PDict [("sha", PStr "abc123")]]))
    | _ => None
    end;
  zipball_reply := fun _ => Some (ZipOf demo_zip);
  returncode := fun c => match c with CmdRun _ => 7%Z | _ => 0%Z end
|}.

Definition update : Args := {| no_update := false; force := false |}.
Definition update_force : Args := {| no_update := false; force := true |}.
Definition skip_update : Args := {| no_update := true; force := false |}.

(** Nothing on disk yet. *)
Definition fresh : World := {| fs := Dir []; trace := [] |}.

(** The disk after a first successful run. *)
Definition installed : World :=
  Eval vm_compute in
    {| fs := fs (snd (main demo_env update fresh)); trace := [] |}.

(** GitHub has moved on to commit [def456], and installing the project
    with pip fails. *)
Definition failing_env : Env := {|
  home := ["home"; "u"];
  windows := false;
  api_reply := fun url =>
    match url with
    | [_; _; _; _] => Some (Json (PDict [("default_branch", PStr "main")]))
    | _ :: _ :: _ :: _ :: Lit "/commits?sha=" :: _ =>
        Some (Json (PList [PDict [("sha", PStr "def456")]]))
    | _ => None
    end;
  zipball_reply := fun _ => Some (ZipOf demo_zip);
  returncode := fun c => match c with CmdPipInstall _ _ => 1%Z | _ => 0%Z end
|}.

(** The pointer records [abc123], but its artifact has been deleted. *)
Definition orphaned : World :=
  {| fs :=
       Dir [("home", Dir [("u", Dir [("Documents", Dir [("Spectra Processing",
         Dir [("Executable", Dir [("fluorophor_data.txt", File (Raw "seed"))]);
              ("App",
               Dir [("versions", Dir []);
                    ("current.json",
                     File (Json (PDict
                       [("sha", PStr "abc123");
                        ("path", PStr "/home/u/Documents/Spectra Processing/App/versions/abc123")])))])])])])])];
     trace := [] |}.

(** The pointer file was cut short while being written. *)
Definition corrupted : World :=
  {| fs :=
       Dir [("home", Dir [("u", Dir [("Documents", Dir [("Spectra Processing",
         Dir [("Executable", Dir []);
              ("App",
               Dir [("versions", Dir []);
                    ("current.json", File (Raw "{ 'sha': 'abc1"))])])])])])];
     trace := [] |}.

(** An artifact in which [fluorophor_data.txt] is a directory, and no
    user data yet. *)
Definition odd_artifact : World :=
  {| fs :=
       Dir [("home", Dir [("u", Dir [("Documents", Dir [("Spectra Processing",
         Dir [("Executable", Dir []);
              ("App",
               Dir [("versions",
                     Dir [("abc123",
                           Dir [("fluorophor_data.txt", Dir [])])])])])])])])];
     trace := [] |}.

(** ** The Current-Version Pointer, as the specification sees it

    A record of a revision id and the path of its artifact, or nothing.
    [pointer_of] reads it off the disk; it has no answer for a pointer
    file that does not hold such a record. *)

Inductive pointer : Type :=
| Absent
| Recorded (revision_id : pyval) (artifact_path : path).

Definition pointer_of (n : node) (current_file : path) : option pointer :=
  match lookup n current_file with
  | None => Some Absent
  | Some (File (Json (PDict items))) =>
      match assoc "sha" items, assoc "path" items with
      | Some rev, Some (PStr s) => Some (Recorded rev (Path s))
      | _, _ => None
      end
  | Some _ => None
  end.

(** What [main] holds in [current_sha] and [current_path] for it. *)
Definition current_sha_of (ptr : pointer) : pyval :=
  match ptr with Absent => PNone | Recorded rev _ => rev end.

Definition current_path_of (ptr : pointer) : option path :=
  match ptr with Absent => None | Recorded _ p => Some p end.

(** The install decision in the words of the specification:
    [needs_install = force OR current_revision != latest_revision OR
    current_pointer_absent OR current_artifact_missing_on_disk]. *)
Definition current_revision_differs (ptr : pointer) (latest : pyval) : bool :=
  match ptr with
  | Absent => true
  | Recorded rev _ => negb (py_eq rev latest)
  end.

Definition current_pointer_absent (ptr : pointer) : bool :=
  match ptr with Absent => true | Recorded _ _ => false end.

Definition current_artifact_missing_on_disk (ptr : pointer) (n : node) : bool :=
  match ptr with
  | Absent => true
  | Recorded _ p => negb (exists_ n p)
  end.

Definition needs_install_spec (force_ : bool) (ptr : pointer) (latest : pyval)
    (n : node) : bool :=
  force_
  || current_revision_differs ptr latest
  || current_pointer_absent ptr
  || current_artifact_missing_on_disk ptr n.

(** Events that reach the Revision Provider. *)
Definition is_network (ev : event) : bool :=
  match ev with
  | EvHttpJson _ | EvDownload _ => true
  | _ => false
  end.

(** Events that create an artifact: download, extraction, copy. *)
Definition is_fetch (ev : event) : bool :=
  match ev with
  | EvDownload _ | EvExtract | EvCopytree _ => true
  | _ => false
  end.

(** ** Statements about runs

    Relations between the world before and after a run, and the claims
    of the specification that the code does not meet, as they are
    written. *)

Definition zipball_url (s : string) : text :=
  repo_api_url [Lit "/zipball/"; Fmt (PStr s)].

(** The claim C4 as it is written: an archive that does not unpack to
    exactly one top-level directory makes the install fail. *)
Definition archive_layout_checked : Prop :=
  forall (E : Env) (s : string) (w : World) (entries : list (string * node)),
    exists_ (fs w) (VERSIONS_DIR E // s) = false ->
    zipball_reply E (zipball_url s) = Some (ZipOf entries) ->
    List.length (filter (fun e => is_dir (snd e)) entries) <> 1%nat ->
    exists e w', install_from_commit_zip E (PStr s) w = (Raise e, w').

(** A computation is stable for a relation between worlds when every
    run of it, however it ends, takes a world to a related one. *)
Definition stable (R : World -> World -> Prop) {A : Type} (m : M A) : Prop :=
  forall w r w', m w = (r, w') -> R w w'.

(** The trace only grows, and only by events of a given kind. *)
Definition extends (P : event -> Prop) (w w' : World) : Prop :=
  exists new, trace w' = trace w ++ new /\ Forall P new.

(** The node at [q] is the same before and after. *)
Definition keeps (q : path) (w w' : World) : Prop :=
  lookup (fs w') q = lookup (fs w) q.

(** A regular file at [q] is still there, with the same contents. *)
Definition keeps_file (q : path) (d : data) (w w' : World) : Prop :=
  lookup (fs w) q = Some (File d) -> lookup (fs w') q = Some (File d).

(** The claim C5 as it is written: an update run that starts with an
    unreadable pointer file goes on as a fresh install, which begins by
    asking the provider. *)
Definition corrupt_pointer_recovered : Prop :=
  forall (E : Env) (args : Args) (w : World) (raw : string) r w',
    no_update args = false ->
    lookup (fs w) (CURRENT_FILE E) = Some (File (Raw raw)) ->
    main E args w = (r, w') ->
    exists ev, In ev (trace w') /\ is_network ev = true.

Definition seed_dest (E : Env) : path := DATA_DIR E // "fluorophor_data.txt".

Definition seed_candidate1 (d : path) : path :=
  d // "src" // "spectra_processing" // "resources" // "fluorophor_data.txt".

Definition seed_candidate2 (d : path) : path := d // "fluorophor_data.txt".

Definition seed_warning : text :=
  [Lit "WARNING: Could not find fluorophor_data.txt to seed user data directory."].

(** The claim C9 as it is written: seeding never ends in an exception. *)
Definition seeding_never_aborts : Prop :=
  forall (E : Env) (d : path) (w : World) e w',
    seed_data_if_missing E d w <> (Raise e, w').

(** What is left of [install_latest] when the store already has the
    revision: everything but the fetch. *)
Definition reinstall (E : Env) (sha : pyval) (target : path) : M Z :=
  py <- ensure_venv E target ;;
  pip_install_project E py target ;;;
  seed_data_if_missing E target ;;;
  write_current E sha target ;;;
  run_app E py.

(** ** Further statements *)

(** [p.is_dir()] on the disk. *)
Definition is_dir_at (n : node) (p : path) : Prop :=
  exists es, lookup n p = Some (Dir es).

(** The application's directories are there, as directories. *)
Definition dirs_ready (E : Env) (n : node) : Prop :=
  is_dir_at n (DATA_DIR E) /\ is_dir_at n (VERSIONS_DIR E)
  /\ is_dir_at n (APP_ROOT E).

(** A path component as [Path] produces them: not empty, not ".", and
    without a slash. *)
Fixpoint slash_free (c : string) : bool :=
  match c with
  | EmptyString => true
  | String a c' => negb (Ascii.eqb a "/"%char) && slash_free c'
  end.

Definition clean (c : string) : bool :=
  negb (String.eqb c "" || String.eqb c ".") && slash_free c.

(** The record that [write_current] writes. *)
Definition pointer_record (sha : pyval) (install_path : path) : pyval :=
  PDict [("sha", sha); ("path", PStr (str install_path))].

(** Events that start a child process other than the application. *)
Definition is_setup (ev : event) : bool :=
  match ev with
  | EvSubprocess (CmdRun _) => false
  | EvSubprocess _ => true
  | _ => false
  end.

Definition is_pointer_write (ev : event) : bool :=
  match ev with
  | EvWriteCurrent _ _ => true
  | _ => false
  end.

(** The world once the venv command has been started. *)
Definition venv_started (venv_dir : path) (w : World) : World :=
  {| fs := fs w; trace := trace w ++ [EvSubprocess (CmdVenv venv_dir)] |}.

(** [read_current] as a function of the disk. *)
Definition stored (n : node) (current_file : path) : result pyval :=
  match lookup n current_file with
  | None => Ok PNone
  | Some (File (Json v)) => Ok v
  | Some (File (Raw _)) => Raise JSONDecodeError
  | Some (Dir _) => Raise OSError
  end.

(** [current_sha] and [current_path] as [main] takes them from what it
    has read. *)
Definition fields (current : pyval) : result (pyval * option path) :=
  if truthy current then
    match subscript current (KStr "sha") with
    | Raise e => Raise e
    | Ok sha =>
        match subscript current (KStr "path") with
        | Raise e => Raise e
        | Ok (PStr s) => Ok (sha, Some (Path s))
        | Ok _ => Raise TypeError
        end
    end
  else Ok (PNone, None).

(** Nothing that is on the first disk is missing from the second, and
    what was a directory is one still. *)
Definition grows (n n' : node) : Prop :=
  (forall q, exists_ n q = true -> exists_ n' q = true)
  /\ (forall q, is_dir_at n q -> is_dir_at n' q).

Definition world_grows (w w' : World) : Prop := grows (fs w) (fs w').

(** Events that neither fetch an artifact nor write the pointer. *)
Definition quiet (ev : event) : Prop :=
  is_fetch ev = false /\ is_pointer_write ev = false.

(** * Properties *)

(** ** Association lists *)

Section AssocFacts.

Variable A : Type.
Implicit Types (l : list (string * A)) (k : string).

Lemma assoc_set_same k (v : A) l : assoc k (assoc_set k v l) = Some v.
Proof.
  induction l as [|[k' v'] l IH]; simpl.
  - now rewrite String.eqb_refl.
  - destruct (String.eqb k k') eqn:Hk; simpl.
    + now rewrite String.eqb_refl.
    + now rewrite Hk.
Qed.

Lemma assoc_set_other k k' (v : A) l :
  k <> k' -> assoc k' (assoc_set k v l) = assoc k' l.
Proof.
  intros Hne. induction l as [|[k0 v0] l IH]; simpl.
  - destruct (String.eqb k' k) eqn:Hk; [|reflexivity].
    apply String.eqb_eq in Hk. congruence.
  - destruct (String.eqb k k0) eqn:Hk; simpl.
    + apply String.eqb_eq in Hk. subst k0.
      destruct (String.eqb k' k) eqn:Hk'; [|reflexivity].
      apply String.eqb_eq in Hk'. congruence.
    + now rewrite IH.
Qed.

End AssocFacts.

(** ** The file-system tree *)

(** What was put is there afterwards. *)
Lemma lookup_put_same p : forall n x n',
  put n p x = Some n' -> lookup n' p = Some x.
Proof.
  induction p as [|c p IH]; intros n x n'; simpl.
  - now intros [= ->].
  - destruct n as [d|es]; [discriminate|].
    destruct (put (child c es) p x) as [n1|] eqn:Hput; [|discriminate].
    intros [= <-]. simpl. rewrite assoc_set_same. eauto.
Qed.

(** A put does not show at a path that leaves the written one at some
    component. *)
Lemma lookup_put_diverge pre : forall n a b r1 r2 x n',
  a <> b ->
  put n (pre ++ a :: r1) x = Some n' ->
  lookup n' (pre ++ b :: r2) = lookup n (pre ++ b :: r2).
Proof.
  induction pre as [|c pre IH]; intros n a b r1 r2 x n' Hab; simpl.
  - destruct n as [d|es]; [discriminate|].
    destruct (put (child a es) r1 x) as [n1|]; [|discriminate].
    intros [= <-]. simpl. now rewrite assoc_set_other.
  - destruct n as [d|es]; [discriminate|].
    destruct (put (child c es) (pre ++ a :: r1) x) as [n1|] eqn:Hput;
      [|discriminate].
    intros [= <-]. simpl. rewrite assoc_set_same.
    rewrite (IH _ _ _ _ r2 _ _ Hab Hput).
    unfold child. destruct (assoc c es); [reflexivity|].
    destruct pre; reflexivity.
Qed.

(** A put at a path that did not exist leaves every regular file as it
    was. *)
Lemma lookup_put_fresh_file p : forall n x n' q d,
  put n p x = Some n' ->
  lookup n p = None ->
  lookup n q = Some (File d) ->
  lookup n' q = Some (File d).
Proof.
  induction p as [|c p IH]; intros n x n' q d; simpl; [discriminate|].
  destruct n as [d0|es]; [discriminate|].
  destruct (put (child c es) p x) as [n1|] eqn:Hput; [|discriminate].
  intros [= <-] Hfresh Hq.
  destruct q as [|c' q]; [discriminate|]. simpl in Hq |- *.
  destruct (String.eqb c c') eqn:Hc.
  - apply String.eqb_eq in Hc. subst c'. rewrite assoc_set_same.
    unfold child in Hput. destruct (assoc c es) as [n0|]; [|discriminate].
    eapply IH; eassumption.
  - apply String.eqb_neq in Hc. now rewrite assoc_set_other.
Qed.

(** [mkdirs] only adds directories on the way to its argument. *)
Lemma lookup_mkdirs_diverge pre : forall n a b r1 r2 n',
  a <> b ->
  mkdirs n (pre ++ a :: r1) = Some n' ->
  lookup n' (pre ++ b :: r2) = lookup n (pre ++ b :: r2).
Proof.
  induction pre as [|c pre IH]; intros n a b r1 r2 n' Hab; simpl.
  - destruct n as [d|es]; [discriminate|].
    destruct (mkdirs (child a es) r1) as [n1|]; [|discriminate].
    intros [= <-]. simpl. now rewrite assoc_set_other.
  - destruct n as [d|es]; [discriminate|].
    destruct (mkdirs (child c es) (pre ++ a :: r1)) as [n1|] eqn:Hmk;
      [|discriminate].
    intros [= <-]. simpl. rewrite assoc_set_same.
    rewrite (IH _ _ _ _ r2 _ Hab Hmk).
    unfold child. destruct (assoc c es); [reflexivity|].
    destruct pre; reflexivity.
Qed.

Lemma lookup_mkdirs_below p : forall n n' c r,
  mkdirs n p = Some n' ->
  lookup n' (p ++ c :: r) = lookup n (p ++ c :: r).
Proof.
  induction p as [|c0 p IH]; intros n n' c r; simpl.
  - destruct n; [discriminate|]. now intros [= <-].
  - destruct n as [d|es]; [discriminate|].
    destruct (mkdirs (child c0 es) p) as [n1|] eqn:Hmk; [|discriminate].
    intros [= <-]. simpl. rewrite assoc_set_same.
    rewrite (IH _ _ c r Hmk).
    unfold child. destruct (assoc c0 es); [reflexivity|].
    destruct p; reflexivity.
Qed.

(** [write_file] is a [put] that asks more. *)
Lemma write_file_put n p d n' :
  write_file n p d = Some n' -> put n p (File d) = Some n'.
Proof.
  unfold write_file.
  destruct (lookup n (removelast p)) as [[|]|]; try discriminate.
  destruct (lookup n p) as [[|]|]; try discriminate; auto.
Qed.

(** ** Environment preparation and data seeding *)

(** C7. [ensure_venv] is idempotent: when the interpreter of the
    environment already exists under the artifact directory, the call
    returns the path of that interpreter and leaves the world as it was;
    in particular no child process (venv creation, pip) is started. *)
Theorem ensure_venv_idempotent (E : Env) (project_dir : path) (w : World) :
  exists_ (fs w) (interpreter E (project_dir // ".venv")) = true ->
  ensure_venv E project_dir w
  = (Ok (interpreter E (project_dir // ".venv")), w).
Proof.
  intros Hpy. unfold ensure_venv, bind, get_fs. now rewrite Hpy.
Qed.

Lemma ensure_venv_idempotent_witness :
  ensure_venv demo_env (VERSIONS_DIR demo_env // "abc123") installed
  = (Ok (interpreter demo_env (VERSIONS_DIR demo_env // "abc123" // ".venv")),
     installed).
Proof.
  apply (ensure_venv_idempotent demo_env (VERSIONS_DIR demo_env // "abc123")
           installed).
  vm_compute. reflexivity.
Defined.

(** C10. Seeding never overwrites user data: when the data file already
    exists in the user's data directory, [seed_data_if_missing] returns
    at once and changes nothing, whatever the installed artifact
    contains. *)
Theorem seed_keeps_user_data (E : Env) (installed_project_dir : path)
    (w : World) :
  exists_ (fs w) (DATA_DIR E // "fluorophor_data.txt") = true ->
  seed_data_if_missing E installed_project_dir w = (Ok tt, w).
Proof.
  intros Hdest. unfold seed_data_if_missing, bind, get_fs. now rewrite Hdest.
Qed.

Lemma seed_keeps_user_data_witness :
  seed_data_if_missing demo_env (VERSIONS_DIR demo_env // "abc123") installed
  = (Ok tt, installed).
Proof.
  apply (seed_keeps_user_data demo_env (VERSIONS_DIR demo_env // "abc123")
           installed).
  vm_compute. reflexivity.
Defined.

(** ** The artifact store *)

(** An install that succeeds leaves the entry in place. *)
Lemma install_ok_exists (E : Env) (s : string) (w w1 : World) (d : path) :
  install_from_commit_zip E (PStr s) w = (Ok d, w1) ->
  d = VERSIONS_DIR E // s /\ exists_ (fs w1) (VERSIONS_DIR E // s) = true.
Proof.
  unfold install_from_commit_zip, bind, get_fs.
  destruct (exists_ (fs w) (VERSIONS_DIR E // s)) eqn:Hex.
  - unfold ret. intros [= <- <-]. auto.
  - unfold download_bytes, bind, emit.
    destruct (zipball_reply E _) as [[|entries]|]; cbn; try discriminate.
    destruct (filter _ entries) as [|root roots]; cbn; [discriminate|].
    rewrite Hex.
    destruct (put (fs w) (VERSIONS_DIR E // s) (snd root)) as [n'|] eqn:Hput;
      cbn; [|discriminate].
    intros [= <- <-]. split; [reflexivity|]. cbn.
    unfold exists_. now rewrite (lookup_put_same _ _ _ _ Hput).
Qed.

(** With the entry in the store the install is a test and a return. *)
Lemma install_noop (E : Env) (s : string) (w : World) :
  exists_ (fs w) (VERSIONS_DIR E // s) = true ->
  install_from_commit_zip E (PStr s) w = (Ok (VERSIONS_DIR E // s), w).
Proof.
  intros Hex. unfold install_from_commit_zip, bind, get_fs. now rewrite Hex.
Qed.

(** C3. When the store already holds an entry for the revision,
    [install_from_commit_zip] returns that directory and does nothing
    else: the world, and with it the store and the trace of downloads,
    extractions and copies, is unchanged.  Hence installing a second time,
    after an install that succeeded, returns the same directory and
    changes nothing. *)
Theorem install_idempotent (E : Env) (s : string) (w : World) :
  (exists_ (fs w) (VERSIONS_DIR E // s) = true ->
   install_from_commit_zip E (PStr s) w = (Ok (VERSIONS_DIR E // s), w))
  /\ (forall d w1,
        install_from_commit_zip E (PStr s) w = (Ok d, w1) ->
        d = VERSIONS_DIR E // s
        /\ exists_ (fs w1) (VERSIONS_DIR E // s) = true
        /\ install_from_commit_zip E (PStr s) w1 = (Ok d, w1)).
Proof.
  split; [apply install_noop|].
  intros d w1 Hfirst.
  destruct (install_ok_exists _ _ _ _ _ Hfirst) as [-> Hex].
  auto using install_noop.
Qed.

Lemma install_idempotent_witness :
  install_from_commit_zip demo_env (PStr "abc123") installed
  = (Ok (VERSIONS_DIR demo_env // "abc123"), installed)
  /\ exists w1,
       install_from_commit_zip demo_env (PStr "abc123") fresh
       = (Ok (VERSIONS_DIR demo_env // "abc123"), w1)
       /\ install_from_commit_zip demo_env (PStr "abc123") w1
          = (Ok (VERSIONS_DIR demo_env // "abc123"), w1).
Proof.
  split.
  - apply (proj1 (install_idempotent demo_env "abc123" installed)).
    vm_compute. reflexivity.
  - eexists. split; [vm_compute; reflexivity|].
    eapply (proj2 (install_idempotent demo_env "abc123" fresh)).
    vm_compute. reflexivity.
Defined.

(** C4, counterexample.  The sample archive unpacks to two top-level
    directories and the install succeeds. *)
Lemma archive_layout_unchecked : ~ archive_layout_checked.
Proof.
  intros Hclaim.
  destruct (Hclaim demo_env "abc123" fresh demo_zip) as (e & w' & Hrun);
    try (vm_compute; congruence).
  vm_compute in Hrun. discriminate.
Qed.

(** C4, as the code has it.  With no entry in the store yet and a zipball
    that unpacks to [entries]: if none of them is a directory the install
    raises [RuntimeError] and the file system, hence the store, is as
    before; otherwise the first directory in listing order, and no other,
    is copied to the store, however many there are. *)
Theorem install_first_directory (E : Env) (s : string) (w : World)
    (entries : list (string * node)) :
  exists_ (fs w) (VERSIONS_DIR E // s) = false ->
  zipball_reply E (zipball_url s) = Some (ZipOf entries) ->
  match filter (fun e => is_dir (snd e)) entries with
  | [] =>
      install_from_commit_zip E (PStr s) w
      = (Raise (RuntimeError [Lit "Zipball did not contain an extracted directory."]),
         {| fs := fs w;
            trace := trace w ++ [EvDownload (zipball_url s); EvExtract] |})
  | root :: _ =>
      match put (fs w) (VERSIONS_DIR E // s) (snd root) with
      | Some n' =>
          install_from_commit_zip E (PStr s) w
          = (Ok (VERSIONS_DIR E // s),
             {| fs := n';
                trace := trace w ++ [EvDownload (zipball_url s); EvExtract;
                                     EvCopytree (VERSIONS_DIR E // s)] |})
          /\ lookup n' (VERSIONS_DIR E // s) = Some (snd root)
      | None =>
          install_from_commit_zip E (PStr s) w
          = (Raise OSError,
             {| fs := fs w;
                trace := trace w ++ [EvDownload (zipball_url s); EvExtract;
                                     EvCopytree (VERSIONS_DIR E // s)] |})
      end
  end.
Proof.
  intros Hex Hzip.
  unfold install_from_commit_zip, bind, get_fs. rewrite Hex.
  unfold download_bytes, bind, emit. fold (zipball_url s). rewrite Hzip. cbn.
  destruct (filter _ entries) as [|root roots]; cbn.
  - now rewrite <- app_assoc.
  - rewrite Hex.
    destruct (put (fs w) (VERSIONS_DIR E // s) (snd root)) as [n'|] eqn:Hput;
      cbn; rewrite <- !app_assoc; cbn; [split|]; try reflexivity.
    apply (lookup_put_same _ _ _ _ Hput).
Qed.

Lemma install_first_directory_witness :
  exists n',
    install_from_commit_zip demo_env (PStr "abc123") fresh
    = (Ok (VERSIONS_DIR demo_env // "abc123"),
       {| fs := n';
          trace := [EvDownload (zipball_url "abc123"); EvExtract;
                    EvCopytree (VERSIONS_DIR demo_env // "abc123")] |})
    /\ lookup n' (VERSIONS_DIR demo_env // "abc123")
       = Some (Dir [("fluorophor_data.txt", File (Raw "seed"))]).
Proof.
  eexists.
  exact (install_first_directory demo_env "abc123" fresh demo_zip
           eq_refl eq_refl).
Defined.

(** ** Reasoning about runs *)

Lemma bind_inv {A B : Type} (m : M A) (f : A -> M B) w r w' :
  bind m f w = (r, w') ->
  (exists a w1, m w = (Ok a, w1) /\ f a w1 = (r, w'))
  \/ (exists e, m w = (Raise e, w') /\ r = Raise e).
Proof.
  unfold bind. destruct (m w) as [[a|e] w1].
  - intros H. left. eauto.
  - intros [= <- <-]. right. eauto.
Qed.

Lemma bind_ok {A B : Type} (m : M A) (f : A -> M B) w a w1 :
  m w = (Ok a, w1) -> bind m f w = f a w1.
Proof. unfold bind. now intros ->. Qed.

Lemma bind_raise {A B : Type} (m : M A) (f : A -> M B) w e w1 :
  m w = (Raise e, w1) -> bind m f w = (Raise e, w1).
Proof. unfold bind. now intros ->. Qed.

Section Stable.

Variable R : World -> World -> Prop.
Hypothesis R_refl : forall w, R w w.
Hypothesis R_trans : forall w1 w2 w3, R w1 w2 -> R w2 w3 -> R w1 w3.

Lemma stable_ret {A : Type} (a : A) : stable R (ret a).
Proof. intros w r w' [= <- <-]. apply R_refl. Qed.

Lemma stable_raise {A : Type} (e : exn) : stable R (@raise A e).
Proof. intros w r w' [= <- <-]. apply R_refl. Qed.

Lemma stable_lift {A : Type} (x : result A) : stable R (lift x).
Proof. intros w r w' [= <- <-]. apply R_refl. Qed.

Lemma stable_get_fs : stable R get_fs.
Proof. intros w r w' [= <- <-]. apply R_refl. Qed.

Lemma stable_bind {A B : Type} (m : M A) (f : A -> M B) :
  stable R m -> (forall a, stable R (f a)) -> stable R (bind m f).
Proof.
  intros Hm Hf w r w' Hrun.
  destruct (bind_inv _ _ _ _ _ Hrun) as [(a & w1 & H1 & H2)|(e & H1 & _)].
  - eapply R_trans; [eapply Hm|eapply Hf]; eassumption.
  - eapply Hm; eassumption.
Qed.

(** Reading the state first does not matter. *)
Lemma stable_with_fs {A : Type} (f : node -> M A) :
  (forall w, stable R (fun w0 => f (fs w) w0)) -> stable R (bind get_fs f).
Proof.
  intros Hf w r w' Hrun. unfold bind, get_fs in Hrun.
  eapply Hf; eassumption.
Qed.

End Stable.

Lemma extends_refl P w : extends P w w.
Proof. exists []. now rewrite app_nil_r. Qed.

Lemma extends_trans P w1 w2 w3 :
  extends P w1 w2 -> extends P w2 w3 -> extends P w1 w3.
Proof.
  intros (n1 & H1 & F1) (n2 & H2 & F2). exists (n1 ++ n2).
  rewrite H2, H1, app_assoc. split; [reflexivity|].
  apply Forall_app. auto.
Qed.

Lemma extends_emit P ev : P ev -> stable (extends P) (emit ev).
Proof.
  intros Hev w r w' [= <- <-]. exists [ev]. cbn. auto.
Qed.

Lemma extends_set_fs P n : stable (extends P) (set_fs n).
Proof. intros w r w' [= <- <-]. exists []. cbn. now rewrite app_nil_r. Qed.

Lemma extends_update_fs P f : stable (extends P) (update_fs f).
Proof.
  intros w r w'. unfold update_fs, bind, get_fs.
  destruct (f (fs w)).
  - apply extends_set_fs.
  - intros [= <- <-]. apply extends_refl.
Qed.

Lemma extends_bind P {A B : Type} (m : M A) (f : A -> M B) :
  stable (extends P) m -> (forall a, stable (extends P) (f a)) ->
  stable (extends P) (bind m f).
Proof. apply stable_bind, extends_trans. Qed.

Lemma extends_pure P {A : Type} (x : result A) : stable (extends P) (lift x).
Proof. apply stable_lift, extends_refl. Qed.

(** Breaks a goal [stable (extends P) m] down along the structure of
    [m]; what is left are the events. *)
Ltac extends_steps :=
  repeat first
    [ apply extends_bind; [|intros ?]
    | apply stable_ret, extends_refl
    | apply stable_raise, extends_refl
    | apply extends_pure
    | apply stable_get_fs, extends_refl
    | apply extends_update_fs
    | apply extends_set_fs
    | apply extends_emit
    | match goal with
      | |- stable _ (match ?x with _ => _ end) => destruct x
      | |- stable _ (if ?x then _ else _) => destruct x
      end ].

Section TraceOf.

Variable E : Env.
Variable P : event -> Prop.

Lemma extends_ensure_dirs : stable (extends P) (ensure_dirs E).
Proof. unfold ensure_dirs. extends_steps. Qed.

Lemma extends_read_current : stable (extends P) (read_current E).
Proof. unfold read_current. extends_steps. Qed.

Hypothesis P_subprocess : forall c, P (EvSubprocess c).

Lemma extends_ensure_venv d : stable (extends P) (ensure_venv E d).
Proof. unfold ensure_venv, subprocess_run. extends_steps; auto. Qed.

Lemma extends_run_app py : stable (extends P) (run_app E py).
Proof. unfold run_app. extends_steps. auto. Qed.

Lemma extends_launch d : stable (extends P) (launch E d).
Proof.
  unfold launch. apply extends_bind; [apply extends_ensure_venv|].
  intros py. apply extends_run_app.
Qed.

Lemma extends_pip_install_project py d :
  stable (extends P) (pip_install_project E py d).
Proof. unfold pip_install_project, subprocess_run. extends_steps; auto. Qed.

Hypothesis P_print : forall msg, P (EvPrint msg).

Lemma extends_seed_data_if_missing d :
  stable (extends P) (seed_data_if_missing E d).
Proof. unfold seed_data_if_missing, copy2, print. extends_steps; auto. Qed.

Hypothesis P_write : forall sha p, P (EvWriteCurrent sha p).

Lemma extends_write_current sha p : stable (extends P) (write_current E sha p).
Proof. unfold write_current. extends_steps. auto. Qed.

Hypothesis P_http : forall url, P (EvHttpJson url).

Lemma extends_http_json url : stable (extends P) (http_json E url).
Proof. unfold http_json. extends_steps. auto. Qed.

Lemma extends_get_default_branch : stable (extends P) (get_default_branch E).
Proof.
  unfold get_default_branch. cbn.
  apply extends_bind; [apply extends_http_json|]. intros repo.
  apply extends_pure.
Qed.

Lemma extends_get_latest_commit_sha branch :
  stable (extends P) (get_latest_commit_sha E branch).
Proof.
  unfold get_latest_commit_sha.
  apply extends_bind; [apply extends_http_json|]. intros commits.
  extends_steps.
Qed.

End TraceOf.

(** ** Reading the pointer *)

(** With the application directories in place and a pointer that is
    absent or a proper record, [main] gets to its decision with the
    record's fields in [current_sha] and [current_path]. *)
Lemma main_reads_pointer (E : Env) (args : Args) (w w1 : World) (ptr : pointer) :
  ensure_dirs E w = (Ok tt, w1) ->
  pointer_of (fs w1) (CURRENT_FILE E) = Some ptr ->
  main E args w
  = decide_and_run E args (current_sha_of ptr) (current_path_of ptr) w1.
Proof.
  intros Hdirs Hptr. unfold main. rewrite (bind_ok _ _ _ _ _ Hdirs).
  unfold pointer_of in Hptr. unfold read_current, bind at 1 2, get_fs, exists_.
  destruct (lookup (fs w1) (CURRENT_FILE E)) as [[[raw|v]|es]|]; cbn;
    try discriminate.
  - destruct v as [| | | | |items]; try discriminate.
    destruct (assoc "sha" items) as [rev|] eqn:Hsha; [|discriminate].
    destruct (assoc "path" items) as [[| | |s| |]|] eqn:Hpath; try discriminate.
    injection Hptr as <-.
    destruct items as [|item items]; [discriminate|].
    unfold bind, lift, ret. cbn [truthy subscript]. rewrite Hsha, Hpath.
    reflexivity.
  - injection Hptr as <-. reflexivity.
Qed.

(** ** Skip-update mode *)

(** C6. In skip-update mode no run of [main], however it ends, adds a
    call to the Revision Provider to the trace.  Once the application
    directories are in place: with no pointer, or with a pointer whose
    recorded artifact path is not on disk, the run ends in [SystemExit]
    with the no-installed-version message; with a pointer whose path
    exists, the run is the launch of the recorded version. *)
Theorem skip_update_offline (E : Env) (args : Args) (w : World) :
  no_update args = true ->
  (forall r w', main E args w = (r, w') ->
     extends (fun ev => is_network ev = false) w w')
  /\ (forall w1 ptr,
        ensure_dirs E w = (Ok tt, w1) ->
        pointer_of (fs w1) (CURRENT_FILE E) = Some ptr ->
        main E args w
        = match ptr with
          | Absent => (Raise (SystemExit no_installed_version), w1)
          | Recorded _ p =>
              if exists_ (fs w1) p then launch E p w1
              else (Raise (SystemExit no_installed_version), w1)
          end).
Proof.
  intros Hskip. split.
  - revert w. change (stable (extends (fun ev => is_network ev = false))
                        (main E args)).
    unfold main, decide_and_run. rewrite Hskip. cbn [negb].
    apply extends_bind; [apply extends_ensure_dirs|]. intros _.
    apply extends_bind; [apply extends_read_current|]. intros current.
    apply extends_bind; [extends_steps|]. intros current_sha.
    apply extends_bind; [extends_steps|]. intros current_path.
    apply stable_with_fs. intros w.
    destruct current_path as [p|]; [|apply stable_raise, extends_refl].
    destruct (negb (exists_ (fs w) p)); [apply stable_raise, extends_refl|].
    apply extends_launch. reflexivity.
  - intros w1 ptr Hdirs Hptr.
    rewrite (main_reads_pointer E args w w1 ptr Hdirs Hptr).
    unfold decide_and_run. rewrite Hskip. cbn [negb].
    destruct ptr as [|rev p]; [reflexivity|].
    unfold bind, get_fs. cbn [current_path_of].
    now destruct (exists_ (fs w1) p).
Qed.

Lemma skip_update_offline_witness :
  (forall r w', main demo_env skip_update fresh = (r, w') ->
     extends (fun ev => is_network ev = false) fresh w')
  /\ (forall w1 ptr,
        ensure_dirs demo_env fresh = (Ok tt, w1) ->
        pointer_of (fs w1) (CURRENT_FILE demo_env) = Some ptr ->
        main demo_env skip_update fresh
        = match ptr with
          | Absent => (Raise (SystemExit no_installed_version), w1)
          | Recorded _ p =>
              if exists_ (fs w1) p then launch demo_env p w1
              else (Raise (SystemExit no_installed_version), w1)
          end).
Proof.
  exact (skip_update_offline demo_env skip_update fresh eq_refl).
Defined.

(** ** What the steps leave alone on disk *)

Lemma keeps_refl q w : keeps q w w.
Proof. reflexivity. Qed.

Lemma keeps_trans q w1 w2 w3 : keeps q w1 w2 -> keeps q w2 w3 -> keeps q w1 w3.
Proof. unfold keeps. congruence. Qed.

Lemma keeps_bind q {A B : Type} (m : M A) (f : A -> M B) :
  stable (keeps q) m -> (forall a, stable (keeps q) (f a)) ->
  stable (keeps q) (bind m f).
Proof. apply stable_bind, keeps_trans. Qed.

Lemma keeps_emit q ev : stable (keeps q) (emit ev).
Proof. now intros w r w' [= <- <-]. Qed.

Lemma keeps_update_fs q f :
  (forall n n', f n = Some n' -> lookup n' q = lookup n q) ->
  stable (keeps q) (update_fs f).
Proof.
  intros Hf w r w'. unfold update_fs, bind, get_fs, set_fs, raise, keeps.
  destruct (f (fs w)) as [n'|] eqn:Hfn; intros [= <- <-]; cbn; auto.
Qed.

Ltac keeps_steps :=
  repeat first
    [ apply keeps_update_fs
    | apply keeps_bind; [|intros ?]
    | apply stable_ret, keeps_refl
    | apply stable_raise, keeps_refl
    | apply stable_lift, keeps_refl
    | apply stable_get_fs, keeps_refl
    | apply keeps_emit
    | match goal with
      | |- stable _ (match ?x with _ => _ end) => destruct x
      | |- stable _ (if ?x then _ else _) => destruct x
      end ].

Section PointerFrame.

Variable E : Env.

Let CF : path := CURRENT_FILE E.

Lemma CURRENT_FILE_in_docs :
  CURRENT_FILE E = DOCS_ROOT E ++ "App" :: ["current.json"].
Proof.
  unfold CURRENT_FILE, APP_ROOT, div. now rewrite <- app_assoc.
Qed.

Lemma CURRENT_FILE_in_app : CURRENT_FILE E = APP_ROOT E ++ "current.json" :: [].
Proof. reflexivity. Qed.

(** Everything in the store leaves the pointer's path at the component
    after the application root. *)
Lemma store_path (s : string) (r : path) :
  (VERSIONS_DIR E // s) ++ r = APP_ROOT E ++ "versions" :: (Path s ++ r).
Proof.
  unfold VERSIONS_DIR, div. rewrite <- !app_assoc. reflexivity.
Qed.

Lemma put_in_store_keeps_pointer s r n x n' :
  put n ((VERSIONS_DIR E // s) ++ r) x = Some n' ->
  lookup n' CF = lookup n CF.
Proof.
  rewrite store_path. unfold CF. rewrite CURRENT_FILE_in_app.
  apply lookup_put_diverge. discriminate.
Qed.

Lemma put_data_keeps_pointer n x n' :
  put n (DATA_DIR E // "fluorophor_data.txt") x = Some n' ->
  lookup n' CF = lookup n CF.
Proof.
  unfold CF. rewrite CURRENT_FILE_in_docs.
  unfold DATA_DIR, div. rewrite <- app_assoc.
  apply lookup_put_diverge. discriminate.
Qed.

Lemma keeps_ensure_dirs : stable (keeps CF) (ensure_dirs E).
Proof.
  unfold ensure_dirs.
  repeat (apply keeps_bind; [|intros _]); apply keeps_update_fs; intros n n'.
  - unfold CF. rewrite CURRENT_FILE_in_docs. unfold DATA_DIR, div.
    apply lookup_mkdirs_diverge. discriminate.
  - unfold CF. rewrite CURRENT_FILE_in_app. unfold VERSIONS_DIR, div.
    apply lookup_mkdirs_diverge. discriminate.
  - unfold CF. rewrite CURRENT_FILE_in_app. apply lookup_mkdirs_below.
Qed.

Lemma keeps_http_json url : stable (keeps CF) (http_json E url).
Proof. unfold http_json. keeps_steps. Qed.

Lemma keeps_get_default_branch : stable (keeps CF) (get_default_branch E).
Proof.
  unfold get_default_branch. cbn.
  apply keeps_bind; [apply keeps_http_json|]. intros repo.
  apply stable_lift, keeps_refl.
Qed.

Lemma keeps_get_latest_commit_sha branch :
  stable (keeps CF) (get_latest_commit_sha E branch).
Proof.
  unfold get_latest_commit_sha.
  apply keeps_bind; [apply keeps_http_json|]. intros commits.
  keeps_steps.
Qed.

Lemma keeps_install_from_commit_zip sha :
  stable (keeps CF) (install_from_commit_zip E sha).
Proof.
  unfold install_from_commit_zip.
  destruct sha as [| | |s| |]; try apply stable_raise, keeps_refl.
  unfold download_bytes, extract_zip, copytree. keeps_steps.
  intros n n'.
  destruct (exists_ n (VERSIONS_DIR E // s)); [discriminate|].
  rewrite <- (app_nil_r (VERSIONS_DIR E // s)).
  apply put_in_store_keeps_pointer.
Qed.

(** The interpreter of an artifact in the store is in the store. *)
Lemma interpreter_in_store s :
  exists r, interpreter E (VERSIONS_DIR E // s // ".venv")
            = (VERSIONS_DIR E // s) ++ r.
Proof.
  unfold interpreter, div at 1 2. rewrite <- app_assoc. eauto.
Qed.

Lemma keeps_subprocess_run c :
  match c with
  | CmdVenv venv_dir =>
      exists s r, interpreter E venv_dir = (VERSIONS_DIR E // s) ++ r
  | _ => True
  end ->
  stable (keeps CF) (subprocess_run E c).
Proof.
  intros Hc. unfold subprocess_run.
  apply keeps_bind; [apply keeps_emit|]. intros _.
  destruct (Z.eqb (returncode E c) 0); [|apply stable_raise, keeps_refl].
  destruct c as [venv_dir|py|py cwd|py]; try apply stable_ret, keeps_refl.
  destruct Hc as (s & r & Hpy). rewrite Hpy.
  intros w res w'. unfold bind, get_fs, set_fs, raise, keeps.
  destruct (put (fs w) _ _) as [n'|] eqn:Hput; intros [= <- <-]; cbn; auto.
  eapply put_in_store_keeps_pointer; eassumption.
Qed.

Lemma keeps_ensure_venv_in_store s :
  stable (keeps CF) (ensure_venv E (VERSIONS_DIR E // s)).
Proof.
  unfold ensure_venv.
  apply keeps_bind; [apply stable_get_fs, keeps_refl|]. intros n.
  apply keeps_bind; [|intros _; apply stable_ret, keeps_refl].
  destruct (negb _); [|apply stable_ret, keeps_refl].
  apply keeps_bind; [|intros _]; apply keeps_subprocess_run; [|exact I].
  destruct (interpreter_in_store s) as [r Hr]. eauto.
Qed.

Lemma keeps_pip_install_project py d :
  stable (keeps CF) (pip_install_project E py d).
Proof. apply keeps_subprocess_run. exact I. Qed.

Lemma keeps_seed_data_if_missing d :
  stable (keeps CF) (seed_data_if_missing E d).
Proof.
  unfold seed_data_if_missing, copy2, print. keeps_steps.
  all: intros n n' Hw; apply write_file_put in Hw;
    eapply put_data_keeps_pointer; eassumption.
Qed.

(** A pointer write that fails has written nothing, and the launch that
    follows a successful one does not raise. *)
Lemma write_then_run_raise_keeps sha d py w e w' :
  (write_current E sha d ;;; run_app E py) w = (Raise e, w') ->
  keeps CF w w'.
Proof.
  unfold write_current, update_fs, run_app, bind, get_fs, set_fs, emit, raise, ret.
  cbn. destruct (write_file (fs w) (CURRENT_FILE E) _); [discriminate|].
  now intros [= <- <-].
Qed.

End PointerFrame.

(** Creating an environment under any directory whatever, and launching
    from it, leaves every regular file alone: the interpreter is only
    created where nothing was. *)
Lemma ensure_venv_keeps_file (E : Env) (p q : path) (d : data) :
  stable (keeps_file q d) (ensure_venv E p).
Proof.
  intros w r w'. unfold keeps_file, ensure_venv, bind, get_fs.
  destruct (exists_ (fs w) (interpreter E (p // ".venv"))) eqn:Hex; cbn.
  - now intros [= <- <-].
  - unfold subprocess_run, bind, emit, get_fs, set_fs, raise, ret. cbn.
    destruct (Z.eqb (returncode E (CmdVenv (p // ".venv"))) 0); cbn;
      [|now intros [= <- <-]].
    destruct (put (fs w) (interpreter E (p // ".venv")) (File (Raw "")))
      as [n'|] eqn:Hput; cbn; [|now intros [= <- <-]].
    assert (Hkept : lookup (fs w) q = Some (File d) ->
                    lookup n' q = Some (File d)).
    { intros Hq. eapply lookup_put_fresh_file; try eassumption.
      unfold exists_ in Hex. now destruct (lookup (fs w) _). }
    destruct (Z.eqb (returncode E (CmdPipUpgrade _)) 0); cbn;
      intros [= <- <-]; exact Hkept.
Qed.

Lemma launch_keeps_file (E : Env) (p q : path) (d : data) :
  stable (keeps_file q d) (launch E p).
Proof.
  intros w r w' Hrun Hq. unfold launch in Hrun.
  destruct (bind_inv _ _ _ _ _ Hrun) as [(py & w1 & H1 & H2)|(e & H1 & _)].
  - apply (ensure_venv_keeps_file E p q d _ _ _ H1) in Hq.
    unfold run_app, bind, emit, ret in H2. now injection H2 as <- <-.
  - exact (ensure_venv_keeps_file E p q d _ _ _ H1 Hq).
Qed.

Lemma install_ok_path (E : Env) (sha : pyval) (w w1 : World) (d : path) :
  install_from_commit_zip E sha w = (Ok d, w1) ->
  exists s, sha = PStr s /\ d = VERSIONS_DIR E // s.
Proof.
  destruct sha as [| | |s| |]; try discriminate.
  intros Hrun. exists s.
  now destruct (install_ok_exists _ _ _ _ _ Hrun).
Qed.

(** Takes a run of [bind m f] apart: [m] returned and [f] ran, or [m]
    raised. *)
Ltac run_step H a w1 H1 :=
  let e := fresh "e" in
  apply bind_inv in H;
  destruct H as [(a & w1 & H1 & H)|(e & H1 & _)].

Lemma install_latest_raise_keeps (E : Env) (branch latest : pyval)
    (w w' : World) (e : exn) :
  install_latest E branch latest w = (Raise e, w') ->
  keeps (CURRENT_FILE E) w w'.
Proof.
  intros Hrun. unfold install_latest in Hrun.
  run_step Hrun u1 w1 H1; apply (keeps_emit (CURRENT_FILE E)) in H1; [|exact H1].
  apply (keeps_trans _ _ _ _ H1). clear H1 w.
  run_step Hrun d w2 H2;
    [|exact (keeps_install_from_commit_zip E _ _ _ _ H2)].
  destruct (install_ok_path _ _ _ _ _ H2) as (s & -> & ->).
  apply keeps_install_from_commit_zip in H2.
  apply (keeps_trans _ _ _ _ H2). clear H2 w1.
  run_step Hrun py w3 H3; apply keeps_ensure_venv_in_store in H3; [|exact H3].
  apply (keeps_trans _ _ _ _ H3). clear H3 w2.
  run_step Hrun u4 w4 H4; apply keeps_pip_install_project in H4; [|exact H4].
  apply (keeps_trans _ _ _ _ H4). clear H4 w3.
  run_step Hrun u5 w5 H5; apply keeps_seed_data_if_missing in H5; [|exact H5].
  apply (keeps_trans _ _ _ _ H5). clear H5 w4.
  eapply write_then_run_raise_keeps; eassumption.
Qed.

Lemma needs_install_no_path (f : bool) (sha latest : pyval) (n : node) :
  needs_install f sha latest None n = true.
Proof. unfold needs_install. now rewrite !orb_true_r. Qed.

Lemma decide_raise_keeps (E : Env) (args : Args) (sha : pyval)
    (cpath : option path) (w w' : World) (e : exn) :
  decide_and_run E args sha cpath w = (Raise e, w') ->
  cpath = None \/ (exists d, lookup (fs w) (CURRENT_FILE E) = Some (File d)) ->
  keeps (CURRENT_FILE E) w w'.
Proof.
  intros Hrun Hptr. unfold decide_and_run in Hrun.
  destruct (negb (no_update args)).
  - run_step Hrun branch w1 H1; apply keeps_get_default_branch in H1;
      [|exact H1].
    run_step Hrun latest w2 H2; apply keeps_get_latest_commit_sha in H2;
      [|exact (keeps_trans _ _ _ _ H1 H2)].
    assert (H12 := keeps_trans _ _ _ _ H1 H2). clear H1 H2.
    unfold bind at 1, get_fs in Hrun.
    destruct (needs_install _ _ _ _ _) eqn:Hneeds.
    + apply install_latest_raise_keeps in Hrun.
      exact (keeps_trans _ _ _ _ H12 Hrun).
    + destruct cpath as [p|]; [|now rewrite needs_install_no_path in Hneeds].
      destruct Hptr as [|[d Hd]]; [discriminate|].
      unfold already_up_to_date in Hrun.
      run_step Hrun u3 w3 H3; apply (keeps_emit (CURRENT_FILE E)) in H3;
        assert (H13 := keeps_trans _ _ _ _ H12 H3); [|exact H13].
      clear H12 H3.
      unfold keeps in *. rewrite Hd in *.
      exact (launch_keeps_file E p _ d _ _ _ Hrun H13).
  - unfold bind at 1, get_fs in Hrun.
    destruct cpath as [p|]; [|now injection Hrun as _ <-].
    destruct (negb (exists_ (fs w) p)); [now injection Hrun as _ <-|].
    destruct Hptr as [|[d Hd]]; [discriminate|].
    unfold keeps. rewrite Hd.
    exact (launch_keeps_file E p _ d _ _ _ Hrun Hd).
Qed.

(** ** The ordering of the pointer write *)

(** C1. The pointer is written last but for the launch.  Whenever a run
    of [main] ends in an exception, whichever step raised it (creating
    the directories, reading the pointer, asking the provider, fetching,
    extracting or copying the archive, creating the environment,
    installing the dependencies, seeding, or the pointer write itself),
    what is at the pointer's path afterwards is what was there before the
    run: nothing if there was nothing, the same record otherwise. *)
Theorem pointer_untouched_on_failure (E : Env) (args : Args) (w w' : World)
    (e : exn) :
  main E args w = (Raise e, w') ->
  lookup (fs w') (CURRENT_FILE E) = lookup (fs w) (CURRENT_FILE E).
Proof.
  intros Hrun. change (keeps (CURRENT_FILE E) w w'). unfold main in Hrun.
  run_step Hrun u1 w1 H1; apply keeps_ensure_dirs in H1; [|exact H1].
  apply (keeps_trans _ _ _ _ H1). clear H1 w.
  unfold read_current, bind at 1 2, get_fs, exists_ in Hrun.
  destruct (lookup (fs w1) (CURRENT_FILE E)) as [[[raw|v]|es]|] eqn:Hcur;
    cbn in Hrun; try (now injection Hrun as _ <-).
  - (* a JSON document *)
    unfold bind at 1 in Hrun.
    destruct (truthy v).
    + unfold lift at 1 in Hrun.
      destruct (subscript v (KStr "sha")) as [sha|]; [|now injection Hrun as _ <-].
      unfold bind at 1 2, lift at 1 in Hrun.
      destruct (subscript v (KStr "path")) as [[| | |s| |]|];
        try (now injection Hrun as _ <-).
      unfold ret in Hrun. eapply decide_raise_keeps; eauto.
    + unfold ret at 1, bind at 1, ret at 1 in Hrun.
      eapply decide_raise_keeps; eauto.
  - (* no pointer *)
    eapply decide_raise_keeps; eauto.
Qed.

Lemma pointer_untouched_on_failure_witness :
  lookup (fs (snd (main failing_env update installed))) (CURRENT_FILE failing_env)
  = lookup (fs installed) (CURRENT_FILE failing_env).
Proof.
  apply (pointer_untouched_on_failure failing_env update installed _
           CalledProcessError).
  vm_compute. reflexivity.
Defined.

(** ** The install decision *)

Lemma needs_install_refines (f : bool) (ptr : pointer) (latest : pyval)
    (n : node) :
  needs_install f (current_sha_of ptr) latest (current_path_of ptr) n
  = needs_install_spec f ptr latest n.
Proof.
  destruct ptr as [|rev p]; unfold needs_install, needs_install_spec; cbn.
  - now rewrite !orb_true_r.
  - reflexivity.
Qed.

(** In update mode [main] branches on the formula of the
    specification. *)
Lemma main_decides (E : Env) (args : Args) (w w1 w2 w3 : World)
    (ptr : pointer) (branch latest : pyval) :
  no_update args = false ->
  ensure_dirs E w = (Ok tt, w1) ->
  pointer_of (fs w1) (CURRENT_FILE E) = Some ptr ->
  get_default_branch E w1 = (Ok branch, w2) ->
  get_latest_commit_sha E branch w2 = (Ok latest, w3) ->
  main E args w
  = (if needs_install_spec (force args) ptr latest (fs w3)
     then install_latest E branch latest w3
     else already_up_to_date E (current_sha_of ptr) (current_path_of ptr) w3).
Proof.
  intros Hupd Hdirs Hptr Hbranch Hlatest.
  rewrite (main_reads_pointer E args w w1 ptr Hdirs Hptr).
  unfold decide_and_run. rewrite Hupd. cbn [negb].
  rewrite (bind_ok _ _ _ _ _ Hbranch), (bind_ok _ _ _ _ _ Hlatest).
  unfold bind, get_fs. rewrite needs_install_refines.
  now destruct (needs_install_spec _ _ _ _).
Qed.

(** C2. In update mode, with the application directories in place, a
    pointer that is absent or a proper record, and a provider that
    answers with a branch and its latest revision, [main] installs
    exactly when [force OR current_revision != latest_revision OR
    current_pointer_absent OR current_artifact_missing_on_disk], and
    otherwise launches what the pointer records.  In particular a
    pointer whose revision is the latest but whose artifact path is not
    on disk leads to an install. *)
Theorem install_decision (E : Env) (args : Args) (w w1 w2 w3 : World)
    (ptr : pointer) (branch latest : pyval) :
  no_update args = false ->
  ensure_dirs E w = (Ok tt, w1) ->
  pointer_of (fs w1) (CURRENT_FILE E) = Some ptr ->
  get_default_branch E w1 = (Ok branch, w2) ->
  get_latest_commit_sha E branch w2 = (Ok latest, w3) ->
  main E args w
  = (if needs_install_spec (force args) ptr latest (fs w3)
     then install_latest E branch latest w3
     else already_up_to_date E (current_sha_of ptr) (current_path_of ptr) w3)
  /\ (forall rev p,
        ptr = Recorded rev p ->
        py_eq rev latest = true ->
        exists_ (fs w3) p = false ->
        main E args w = install_latest E branch latest w3).
Proof.
  intros Hupd Hdirs Hptr Hbranch Hlatest.
  assert (Hmain := main_decides E args w w1 w2 w3 ptr branch latest
                     Hupd Hdirs Hptr Hbranch Hlatest).
  split; [exact Hmain|].
  intros rev p -> Heq Hmissing. rewrite Hmain.
  unfold needs_install_spec, current_artifact_missing_on_disk.
  rewrite Hmissing. cbn [negb]. now rewrite orb_true_r.
Qed.

Lemma install_decision_witness :
  let w1 := snd (ensure_dirs demo_env orphaned) in
  let w2 := snd (get_default_branch demo_env w1) in
  let w3 := snd (get_latest_commit_sha demo_env (PStr "main") w2) in
  main demo_env update orphaned
  = install_latest demo_env (PStr "main") (PStr "abc123") w3.
Proof.
  intros w1 w2 w3.
  apply (proj2 (install_decision demo_env update orphaned w1 w2 w3
                  (Recorded (PStr "abc123")
                     (VERSIONS_DIR demo_env // "abc123"))
                  (PStr "main") (PStr "abc123")
                  eq_refl eq_refl eq_refl eq_refl eq_refl)
           (PStr "abc123") (VERSIONS_DIR demo_env // "abc123")
           eq_refl eq_refl eq_refl).
Defined.

(** ** A pointer file that does not parse *)

(** C5, counterexample.  With the sample provider at hand and a
    truncated pointer file the run ends in the parse error and has asked
    nobody. *)
Lemma corrupt_pointer_not_recovered : ~ corrupt_pointer_recovered.
Proof.
  intros Hclaim.
  destruct (Hclaim demo_env update corrupted "{ 'sha': 'abc1"
              (Raise JSONDecodeError) corrupted eq_refl eq_refl eq_refl)
    as (ev & Hin & _).
  exact Hin.
Qed.

Lemma ensure_dirs_silent (E : Env) (w w1 : World) r :
  ensure_dirs E w = (r, w1) -> trace w1 = trace w.
Proof.
  intros Hdirs.
  destruct (extends_ensure_dirs E (fun _ => False) _ _ _ Hdirs)
    as (new & Htrace & Hnew).
  destruct new as [|ev new]; [now rewrite app_nil_r in Htrace|].
  now inversion Hnew.
Qed.

(** C5, as the code has it.  When the pointer file holds something that
    is not JSON, [read_current] raises [JSONDecodeError] and [main] does
    not catch it: once the application directories are in place the run
    ends in that exception, in either mode, with nothing added to the
    trace (so the provider has not been asked and nothing is installed)
    and with the pointer file as it was. *)
Theorem corrupt_pointer_aborts (E : Env) (args : Args) (w w1 : World)
    (raw : string) :
  ensure_dirs E w = (Ok tt, w1) ->
  lookup (fs w) (CURRENT_FILE E) = Some (File (Raw raw)) ->
  read_current E w1 = (Raise JSONDecodeError, w1)
  /\ main E args w = (Raise JSONDecodeError, w1)
  /\ trace w1 = trace w
  /\ lookup (fs w1) (CURRENT_FILE E) = Some (File (Raw raw)).
Proof.
  intros Hdirs Hraw.
  assert (Hkept : lookup (fs w1) (CURRENT_FILE E) = Some (File (Raw raw))).
  { rewrite <- Hraw. exact (keeps_ensure_dirs E _ _ _ Hdirs). }
  assert (Hread : read_current E w1 = (Raise JSONDecodeError, w1)).
  { unfold read_current, bind, get_fs, exists_. now rewrite Hkept. }
  repeat split; auto.
  - unfold main. rewrite (bind_ok _ _ _ _ _ Hdirs).
    now rewrite (bind_raise _ _ _ _ _ Hread).
  - exact (ensure_dirs_silent E _ _ _ Hdirs).
Qed.

Lemma corrupt_pointer_aborts_witness :
  read_current demo_env corrupted = (Raise JSONDecodeError, corrupted)
  /\ main demo_env update corrupted = (Raise JSONDecodeError, corrupted)
  /\ trace corrupted = trace corrupted
  /\ lookup (fs corrupted) (CURRENT_FILE demo_env)
     = Some (File (Raw "{ 'sha': 'abc1")).
Proof.
  exact (corrupt_pointer_aborts demo_env update corrupted corrupted
           "{ 'sha': 'abc1" eq_refl eq_refl).
Defined.

(** ** Data seeding *)

(** C9, counterexample.  In an artifact where [fluorophor_data.txt] is a
    directory the candidate exists, [shutil.copy2] raises, and nothing
    catches it. *)
Lemma seeding_can_abort : ~ seeding_never_aborts.
Proof.
  intros Hclaim.
  apply (Hclaim demo_env (VERSIONS_DIR demo_env // "abc123") odd_artifact
           OSError odd_artifact).
  vm_compute. reflexivity.
Qed.

(** C9, as the code has it.  When neither candidate source exists in the
    artifact, seeding returns normally with the disk unchanged, having
    printed the warning (or nothing at all, when the user's data file is
    already there), and the pipeline goes on with the pointer write and
    the launch.  Seeding raises only out of the copy of a candidate that
    was found. *)
Theorem seeding_miss_is_a_warning (E : Env) (d : path) (w : World) :
  (exists_ (fs w) (seed_candidate1 d) = false ->
   exists_ (fs w) (seed_candidate2 d) = false ->
   let w_after :=
     if exists_ (fs w) (seed_dest E) then w
     else {| fs := fs w; trace := trace w ++ [EvPrint seed_warning] |} in
   seed_data_if_missing E d w = (Ok tt, w_after)
   /\ forall sha py,
        (seed_data_if_missing E d ;;; write_current E sha d ;;; run_app E py) w
        = (write_current E sha d ;;; run_app E py) w_after)
  /\ (forall e w',
        seed_data_if_missing E d w = (Raise e, w') ->
        exists_ (fs w) (seed_dest E) = false
        /\ (exists_ (fs w) (seed_candidate1 d) = true
            \/ exists_ (fs w) (seed_candidate2 d) = true)).
Proof.
  split.
  - intros Hc1 Hc2 w_after.
    assert (Hseed : seed_data_if_missing E d w = (Ok tt, w_after)).
    { unfold seed_data_if_missing, bind at 1, get_fs.
      fold (seed_dest E) (seed_candidate1 d) (seed_candidate2 d).
      subst w_after. destruct (exists_ (fs w) (seed_dest E)); [reflexivity|].
      now rewrite Hc1, Hc2. }
    split; [exact Hseed|]. intros sha py.
    now rewrite (bind_ok _ _ _ _ _ Hseed).
  - intros e w'. unfold seed_data_if_missing, bind at 1, get_fs.
    fold (seed_dest E) (seed_candidate1 d) (seed_candidate2 d).
    destruct (exists_ (fs w) (seed_dest E)); [discriminate|].
    destruct (exists_ (fs w) (seed_candidate1 d)) eqn:Hc1; [auto|].
    destruct (exists_ (fs w) (seed_candidate2 d)) eqn:Hc2; [auto|].
    discriminate.
Qed.

Lemma seeding_miss_is_a_warning_witness :
  seed_data_if_missing demo_env (VERSIONS_DIR demo_env // "abc123") orphaned
  = (Ok tt, orphaned)
  /\ seed_data_if_missing demo_env (VERSIONS_DIR demo_env // "abc123") corrupted
     = (Ok tt, {| fs := fs corrupted; trace := [EvPrint seed_warning] |}).
Proof.
  split.
  - exact (proj1 (proj1 (seeding_miss_is_a_warning demo_env
                           (VERSIONS_DIR demo_env // "abc123") orphaned)
                    eq_refl eq_refl)).
  - exact (proj1 (proj1 (seeding_miss_is_a_warning demo_env
                           (VERSIONS_DIR demo_env // "abc123") corrupted)
                    eq_refl eq_refl)).
Defined.

(** A run in which seeding raises: the archive carries a directory named
    like the data file.  The run ends there, before the pointer write. *)
Example seeding_abort_stops_main :
  let E := {| home := home demo_env; windows := false;
              api_reply := api_reply demo_env;
              zipball_reply := fun _ =>
                Some (ZipOf [("repo", Dir [("fluorophor_data.txt", Dir [])])]);
              returncode := returncode demo_env |} in
  fst (main E update fresh) = Raise OSError
  /\ lookup (fs (snd (main E update fresh))) (CURRENT_FILE E) = None.
Proof. vm_compute. auto. Qed.

(** ** Forced reinstall *)

Lemma ensure_venv_ok_py (E : Env) (d py : path) (w w' : World) :
  ensure_venv E d w = (Ok py, w') -> py = interpreter E (d // ".venv").
Proof.
  unfold ensure_venv. intros Hrun.
  apply bind_inv in Hrun. destruct Hrun as [(n & w1 & _ & Hrun)|(e & _ & He)];
    [|discriminate].
  apply bind_inv in Hrun. destruct Hrun as [(u & w2 & _ & Hrun)|(e & _ & He)];
    [|discriminate].
  now injection Hrun as <- _.
Qed.

Lemma subprocess_run_trace (E : Env) (c : command) (w w' : World) r :
  subprocess_run E c w = (r, w') -> trace w' = trace w ++ [EvSubprocess c].
Proof.
  unfold subprocess_run, bind, emit, get_fs, set_fs, raise, ret. cbn.
  destruct (Z.eqb (returncode E c) 0); [|now intros [= <- <-]].
  destruct c as [venv_dir|py|py cwd|py]; cbn; try (now intros [= <- <-]).
  destruct (put (fs w) _ _); now intros [= <- <-].
Qed.

Lemma write_current_ok (E : Env) (sha : pyval) (d : path) (w w' : World) :
  write_current E sha d w = (Ok tt, w') ->
  trace w' = trace w ++ [EvWriteCurrent sha d]
  /\ lookup (fs w') (CURRENT_FILE E)
     = Some (File (Json (PDict [("sha", sha); ("path", PStr (str d))]))).
Proof.
  unfold write_current, update_fs, bind, emit, get_fs, set_fs, raise. cbn.
  destruct (write_file (fs w) (CURRENT_FILE E) _) as [n'|] eqn:Hw;
    [|discriminate].
  intros [= <-]. cbn. split; [reflexivity|].
  apply write_file_put in Hw. exact (lookup_put_same _ _ _ _ Hw).
Qed.

Lemma extends_reinstall (E : Env) (sha : pyval) (target : path) :
  stable (extends (fun ev => is_fetch ev = false)) (reinstall E sha target).
Proof.
  unfold reinstall.
  apply extends_bind; [now apply extends_ensure_venv|]. intros py.
  apply extends_bind; [now apply extends_pip_install_project|]. intros _.
  apply extends_bind; [now apply extends_seed_data_if_missing|]. intros _.
  apply extends_bind; [now apply extends_write_current|]. intros _.
  now apply extends_run_app.
Qed.

(** C8. Under [--force], with the pointer already at the latest revision
    and that revision in the store, [main] still runs the install
    pipeline.  The store's entry is returned as it is, so the run is the
    pipeline without the fetch: nothing is downloaded, extracted or
    copied, however the run ends; [ensure_venv] and then pip are called
    on the existing artifact; and a run that ends normally has installed
    the project with pip and has written the pointer again, with the same
    revision and the artifact's path. *)
Theorem force_reruns_pipeline (E : Env) (args : Args) (w w1 w2 w3 : World)
    (p : path) (branch : pyval) (s : string) :
  no_update args = false ->
  force args = true ->
  ensure_dirs E w = (Ok tt, w1) ->
  pointer_of (fs w1) (CURRENT_FILE E) = Some (Recorded (PStr s) p) ->
  get_default_branch E w1 = (Ok branch, w2) ->
  get_latest_commit_sha E branch w2 = (Ok (PStr s), w3) ->
  exists_ (fs w3) (VERSIONS_DIR E // s) = true ->
  let target := VERSIONS_DIR E // s in
  let py := interpreter E (target // ".venv") in
  main E args w
  = reinstall E (PStr s) target
      {| fs := fs w3;
         trace := trace w3 ++
           [EvPrint [Lit "Installing latest commit "; Fmt (PStr s);
                     Lit " from branch '"; Fmt branch; Lit "'..."]] |}
  /\ (forall r w', main E args w = (r, w') ->
        extends (fun ev => is_fetch ev = false) w w')
  /\ (forall code w', main E args w = (Ok code, w') ->
        In (EvSubprocess (CmdPipInstall py target)) (trace w')
        /\ In (EvWriteCurrent (PStr s) target) (trace w')
        /\ lookup (fs w') (CURRENT_FILE E)
           = Some (File (Json (PDict [("sha", PStr s);
                                      ("path", PStr (str target))])))).
Proof.
  intros Hupd Hforce Hdirs Hptr Hbranch Hlatest Hstore target py.
  set (w4 := {| fs := fs w3; trace := trace w3 ++ _ |}).
  assert (Hmain : main E args w = reinstall E (PStr s) target w4).
  { rewrite (main_decides E args w w1 w2 w3 _ branch (PStr s)
               Hupd Hdirs Hptr Hbranch Hlatest).
    unfold needs_install_spec. rewrite Hforce. cbn [orb].
    unfold install_latest, print. unfold bind at 1, emit. fold w4.
    assert (Hnoop : install_from_commit_zip E (PStr s) w4 = (Ok target, w4)).
    { apply install_noop. exact Hstore. }
    now rewrite (bind_ok _ _ _ _ _ Hnoop). }
  split; [exact Hmain|]. split.
  - intros r w' Hrun. rewrite Hmain in Hrun.
    apply (extends_trans _ w w1).
    { now apply (extends_ensure_dirs E _ _ _ _ Hdirs). }
    apply (extends_trans _ w1 w2).
    { now apply (extends_get_default_branch E _ (fun _ => eq_refl) _ _ _ Hbranch). }
    apply (extends_trans _ w2 w3).
    { now apply (extends_get_latest_commit_sha E _ (fun _ => eq_refl) _ _ _ _ Hlatest). }
    apply (extends_trans _ w3 w4).
    { eexists. split; [reflexivity|]. now repeat constructor. }
    exact (extends_reinstall E _ _ _ _ _ Hrun).
  - intros code w' Hrun. rewrite Hmain in Hrun. unfold reinstall in Hrun.
    apply bind_inv in Hrun.
    destruct Hrun as [(py' & w5 & Hvenv & Hrun)|(e & _ & He)]; [|discriminate].
    apply ensure_venv_ok_py in Hvenv. subst py'. fold target py in Hrun.
    apply bind_inv in Hrun.
    destruct Hrun as [(u6 & w6 & Hpip & Hrun)|(e & _ & He)]; [|discriminate].
    apply subprocess_run_trace in Hpip.
    apply bind_inv in Hrun.
    destruct Hrun as [(u7 & w7 & Hseed & Hrun)|(e & _ & He)]; [|discriminate].
    destruct (extends_seed_data_if_missing E (fun _ => True)
                (fun _ => I) target _ _ _ Hseed) as (new & Hseed' & _).
    apply bind_inv in Hrun.
    destruct Hrun as [(u8 & w8 & Hwrite & Hrun)|(e & _ & He)]; [|discriminate].
    destruct u8. apply write_current_ok in Hwrite. destruct Hwrite as [Htr Hcur].
    unfold run_app, bind, emit, ret in Hrun. injection Hrun as _ <-. cbn.
    rewrite Htr, Hseed', Hpip. repeat split.
    + rewrite !in_app_iff. do 3 left. right. now left.
    + rewrite !in_app_iff. left. right. now left.
    + exact Hcur.
Qed.

Lemma force_reruns_pipeline_witness :
  let target := VERSIONS_DIR demo_env // "abc123" in
  let py := interpreter demo_env (target // ".venv") in
  main demo_env update_force installed
  = reinstall demo_env (PStr "abc123") target
      {| fs := fs installed;
         trace := [EvHttpJson (repo_api_url []);
                   EvHttpJson (repo_api_url [Lit "/commits?sha=";
                                             Fmt (PStr "main");
                                             Lit "&per_page=1"]);
                   EvPrint [Lit "Installing latest commit "; Fmt (PStr "abc123");
                            Lit " from branch '"; Fmt (PStr "main");
                            Lit "'..."]] |}
  /\ (forall r w', main demo_env update_force installed = (r, w') ->
        extends (fun ev => is_fetch ev = false) installed w')
  /\ (forall code w', main demo_env update_force installed = (Ok code, w') ->
        In (EvSubprocess (CmdPipInstall py target)) (trace w')
        /\ In (EvWriteCurrent (PStr "abc123") target) (trace w')
        /\ lookup (fs w') (CURRENT_FILE demo_env)
           = Some (File (Json (PDict [("sha", PStr "abc123");
                                      ("path", PStr (str target))])))).
Proof.
  exact (force_reruns_pipeline demo_env update_force installed
           installed
           {| fs := fs installed; trace := [EvHttpJson (repo_api_url [])] |}
           {| fs := fs installed;
              trace := [EvHttpJson (repo_api_url []);
                        EvHttpJson (repo_api_url [Lit "/commits?sha=";
                                                  Fmt (PStr "main");
                                                  Lit "&per_page=1"])] |}
           (VERSIONS_DIR demo_env // "abc123") (PStr "main") "abc123"
           eq_refl eq_refl eq_refl eq_refl eq_refl eq_refl eq_refl).
Defined.

(** The forced run on the sample disk does end normally. *)
Example force_run_returns :
  fst (main demo_env update_force installed) = Ok 7%Z.
Proof. vm_compute. reflexivity. Qed.

(** * Further properties *)

(** ** More on the file-system tree *)

Lemma assoc_set_unchanged {A : Type} k (v : A) l :
  assoc k l = Some v -> assoc_set k v l = l.
Proof.
  induction l as [|[k' v'] l IH]; simpl; [discriminate|].
  destruct (String.eqb k k') eqn:Hk.
  - apply String.eqb_eq in Hk. intros [= ->]. now subst.
  - intros H. now rewrite IH.
Qed.

Lemma lookup_prefix n p q x :
  lookup n (p ++ q) = Some x -> exists y, lookup n p = Some y.
Proof.
  revert n. induction p as [|c p IH]; intros n; simpl; [eauto|].
  destruct n as [d|es]; [discriminate|].
  destruct (assoc c es); [apply IH|discriminate].
Qed.

(** [mkdirs] makes its argument a directory. *)
Lemma mkdirs_is_dir p : forall n n',
  mkdirs n p = Some n' -> is_dir_at n' p.
Proof.
  induction p as [|c p IH]; intros n n'; simpl.
  - destruct n as [d|es]; [discriminate|]. intros [= <-]. now exists es.
  - destruct n as [d|es]; [discriminate|].
    destruct (mkdirs (child c es) p) as [n1|] eqn:Hmk; [|discriminate].
    intros [= <-]. unfold is_dir_at. simpl. rewrite assoc_set_same.
    exact (IH _ _ Hmk).
Qed.

(** [mkdirs] on a directory that is there changes nothing. *)
Lemma mkdirs_existing p : forall n,
  is_dir_at n p -> mkdirs n p = Some n.
Proof.
  induction p as [|c p IH]; intros n [es0 Hdir]; simpl in *.
  - injection Hdir as ->. reflexivity.
  - destruct n as [d|es]; [discriminate|].
    destruct (assoc c es) as [n0|] eqn:Hc; [|discriminate].
    unfold child. rewrite Hc. rewrite (IH n0); [|now exists es0].
    now rewrite (assoc_set_unchanged _ _ _ Hc).
Qed.

(** [mkdirs] keeps directories directories and files as they are. *)
Lemma mkdirs_keeps_dirs p : forall n n' q,
  mkdirs n p = Some n' -> is_dir_at n q -> is_dir_at n' q.
Proof.
  induction p as [|c p IH]; intros n n' q; simpl.
  - destruct n; [discriminate|]. now intros [= <-].
  - destruct n as [d|es]; [discriminate|].
    destruct (mkdirs (child c es) p) as [n1|] eqn:Hmk; [|discriminate].
    intros [= <-] [es0 Hq]. unfold is_dir_at.
    destruct q as [|c' q]; [simpl; eauto|]. simpl in Hq |- *.
    destruct (String.eqb c c') eqn:Hc.
    + apply String.eqb_eq in Hc. subst c'. rewrite assoc_set_same.
      unfold child in Hmk. destruct (assoc c es) as [n0|]; [|discriminate].
      apply (IH _ _ _ Hmk). now exists es0.
    + apply String.eqb_neq in Hc. rewrite assoc_set_other by exact Hc. eauto.
Qed.

Lemma mkdirs_keeps_files p : forall n n' q d,
  mkdirs n p = Some n' ->
  lookup n q = Some (File d) -> lookup n' q = Some (File d).
Proof.
  induction p as [|c p IH]; intros n n' q d; simpl.
  - destruct n; [discriminate|]. now intros [= <-].
  - destruct n as [d0|es]; [discriminate|].
    destruct (mkdirs (child c es) p) as [n1|] eqn:Hmk; [|discriminate].
    intros [= <-] Hq.
    destruct q as [|c' q]; [discriminate|]. simpl in Hq |- *.
    destruct (String.eqb c c') eqn:Hc.
    + apply String.eqb_eq in Hc. subst c'. rewrite assoc_set_same.
      unfold child in Hmk. destruct (assoc c es) as [n0|]; [|discriminate].
      exact (IH _ _ _ _ Hmk Hq).
    + apply String.eqb_neq in Hc. now rewrite assoc_set_other.
Qed.

(** A put where there was no directory keeps directories directories. *)
Lemma put_keeps_dirs p : forall n x n' q,
  put n p x = Some n' ->
  ~ is_dir_at n p ->
  is_dir_at n q -> is_dir_at n' q.
Proof.
  induction p as [|c p IH]; intros n x n' q; simpl.
  - intros _ Hp [es Hq]. destruct n as [d|es0].
    + destruct q; discriminate.
    + exfalso. apply Hp. now exists es0.
  - destruct n as [d|es]; [discriminate|].
    destruct (put (child c es) p x) as [n1|] eqn:Hput; [|discriminate].
    intros [= <-] Hp [es0 Hq]. unfold is_dir_at.
    destruct q as [|c' q]; [simpl; eauto|]. simpl in Hq |- *.
    destruct (String.eqb c c') eqn:Hc.
    + apply String.eqb_eq in Hc. subst c'. rewrite assoc_set_same.
      unfold child in Hput. unfold is_dir_at in Hp. simpl in Hp.
      destruct (assoc c es) as [n0|]; [|discriminate].
      apply (IH _ _ _ _ Hput Hp). now exists es0.
    + apply String.eqb_neq in Hc. rewrite assoc_set_other by exact Hc. eauto.
Qed.

Lemma world_eta (w : World) : {| fs := fs w; trace := trace w |} = w.
Proof. now destruct w. Qed.

(** ** The application's directories *)

Lemma update_fs_ok f w n' :
  f (fs w) = Some n' ->
  update_fs f w = (Ok tt, {| fs := n'; trace := trace w |}).
Proof. intros Hf. unfold update_fs, bind, get_fs, set_fs. now rewrite Hf. Qed.

Lemma update_fs_inv f w r w' :
  update_fs f w = (r, w') ->
  (exists n', f (fs w) = Some n' /\ r = Ok tt
              /\ w' = {| fs := n'; trace := trace w |})
  \/ (f (fs w) = None /\ r = Raise OSError /\ w' = w).
Proof.
  unfold update_fs, bind, get_fs, set_fs, raise.
  destruct (f (fs w)) as [n'|]; intros [= <- <-]; eauto.
Qed.

Lemma ensure_dirs_ready (E : Env) (w : World) :
  dirs_ready E (fs w) -> ensure_dirs E w = (Ok tt, w).
Proof.
  intros (Hdata & Hversions & Happ). unfold ensure_dirs.
  rewrite (bind_ok _ _ _ _ _ (update_fs_ok _ w _ (mkdirs_existing _ _ Hdata))).
  rewrite world_eta.
  rewrite (bind_ok _ _ _ _ _ (update_fs_ok _ w _ (mkdirs_existing _ _ Hversions))).
  rewrite world_eta.
  rewrite (update_fs_ok _ w _ (mkdirs_existing _ _ Happ)).
  now rewrite world_eta.
Qed.

Lemma ensure_dirs_ok_ready (E : Env) (w w1 : World) :
  ensure_dirs E w = (Ok tt, w1) -> dirs_ready E (fs w1).
Proof.
  unfold ensure_dirs. intros Hrun.
  apply bind_inv in Hrun. destruct Hrun as [(u1 & wa & H1 & Hrun)|(e & _ & He)];
    [|discriminate].
  apply bind_inv in Hrun. destruct Hrun as [(u2 & wb & H2 & H3)|(e & _ & He)];
    [|discriminate].
  apply update_fs_inv in H1, H2, H3.
  destruct H1 as [(n1 & M1 & _ & ->)|(_ & He & _)]; [|discriminate].
  destruct H2 as [(n2 & M2 & _ & ->)|(_ & He & _)]; [|discriminate].
  destruct H3 as [(n3 & M3 & _ & ->)|(_ & He & _)]; [|discriminate].
  cbn in *. repeat split.
  - eapply mkdirs_keeps_dirs; [exact M3|].
    eapply mkdirs_keeps_dirs; [exact M2|]. exact (mkdirs_is_dir _ _ _ M1).
  - eapply mkdirs_keeps_dirs; [exact M3|]. exact (mkdirs_is_dir _ _ _ M2).
  - exact (mkdirs_is_dir _ _ _ M3).
Qed.

(** X1. When [ensure_dirs] returns, the data directory, the versions
    directory and the application root all exist as directories, and
    calling it again changes nothing ([exist_ok=True]). *)
Theorem ensure_dirs_creates_once (E : Env) (w w1 : World) :
  ensure_dirs E w = (Ok tt, w1) ->
  dirs_ready E (fs w1) /\ ensure_dirs E w1 = (Ok tt, w1).
Proof.
  intros Hrun. assert (Hready := ensure_dirs_ok_ready E w w1 Hrun).
  split; [exact Hready|]. now apply ensure_dirs_ready.
Qed.

Lemma ensure_dirs_creates_once_witness :
  dirs_ready demo_env (fs (snd (ensure_dirs demo_env fresh)))
  /\ ensure_dirs demo_env (snd (ensure_dirs demo_env fresh))
     = (Ok tt, snd (ensure_dirs demo_env fresh)).
Proof.
  apply (ensure_dirs_creates_once demo_env fresh). vm_compute. reflexivity.
Defined.

Lemma keeps_file_trans q d w1 w2 w3 :
  keeps_file q d w1 w2 -> keeps_file q d w2 w3 -> keeps_file q d w1 w3.
Proof. unfold keeps_file. auto. Qed.

Lemma keeps_file_update_fs q d f :
  (forall n n', f n = Some n' -> lookup n q = Some (File d) ->
                lookup n' q = Some (File d)) ->
  stable (keeps_file q d) (update_fs f).
Proof.
  intros Hf w r w' Hrun. apply update_fs_inv in Hrun.
  destruct Hrun as [(n' & Hfn & _ & ->)|(_ & _ & ->)]; unfold keeps_file; cbn;
    eauto.
Qed.

(** X2. [ensure_dirs] never removes or rewrites a regular file: whatever
    file is on disk before the call is there with the same contents
    after it, whether the call returns or raises half way. *)
Theorem ensure_dirs_keeps_files (E : Env) (w w' : World) (r : result unit)
    (q : path) (d : data) :
  ensure_dirs E w = (r, w') ->
  lookup (fs w) q = Some (File d) ->
  lookup (fs w') q = Some (File d).
Proof.
  revert w r w'. change (stable (keeps_file q d) (ensure_dirs E)).
  unfold ensure_dirs.
  repeat (apply stable_bind; [apply keeps_file_trans| |intros _]);
    apply keeps_file_update_fs; intros n n' Hmk;
    exact (mkdirs_keeps_files _ _ _ _ _ Hmk).
Qed.

Lemma ensure_dirs_keeps_files_witness :
  lookup (fs (snd (ensure_dirs demo_env corrupted))) (CURRENT_FILE demo_env)
  = Some (File (Raw "{ 'sha': 'abc1")).
Proof.
  apply (ensure_dirs_keeps_files demo_env corrupted _ (Ok tt)); reflexivity.
Defined.

(** X3. A regular file where a directory is needed makes [ensure_dirs]
    raise [OSError]; here the file sits at the documents root, and the
    disk is left as it was. *)
Theorem ensure_dirs_blocked_by_file (E : Env) (w : World) (d : data) :
  lookup (fs w) (DOCS_ROOT E) = Some (File d) ->
  ensure_dirs E w = (Raise OSError, w).
Proof.
  intros Hfile. unfold ensure_dirs.
  assert (Hmk : mkdirs (fs w) (DATA_DIR E) = None).
  { unfold DATA_DIR, div. generalize (Path "Executable").
    revert Hfile. generalize (DOCS_ROOT E). generalize (fs w).
    intros n p. revert n. induction p as [|c p IH]; intros n Hn l; simpl in *.
    - injection Hn as ->. now destruct l.
    - destruct n as [d0|es]; [reflexivity|].
      destruct (assoc c es) as [n0|] eqn:Hc; [|discriminate].
      unfold child. rewrite Hc. now rewrite (IH _ Hn). }
  unfold update_fs at 1, bind, get_fs. now rewrite Hmk.
Qed.

Lemma ensure_dirs_blocked_by_file_witness :
  let w := {| fs := Dir [("home", Dir [("u", Dir [("Documents",
                 Dir [("Spectra Processing", File (Raw "notes"))])])])];
              trace := [] |} in
  ensure_dirs demo_env w = (Raise OSError, w).
Proof.
  intros w. apply (ensure_dirs_blocked_by_file demo_env w (Raw "notes")).
  reflexivity.
Defined.

(** ** Paths written and read back *)

Lemma append_assoc_string (a b c : string) : ((a ++ b) ++ c = a ++ (b ++ c))%string.
Proof. induction a as [|x a IH]; simpl; [reflexivity|now rewrite IH]. Qed.

Lemma append_nil_r_string (a : string) : (a ++ "" = a)%string.
Proof. induction a as [|x a IH]; simpl; [reflexivity|now rewrite IH]. Qed.

(** Reading a slash-free piece only grows the component at hand. *)
Lemma components_slash_free c : forall s cur,
  slash_free c = true ->
  components (c ++ s) cur = components s (cur ++ c).
Proof.
  induction c as [|a c IH]; intros s cur; simpl.
  - now rewrite append_nil_r_string.
  - intros Hc. apply andb_prop in Hc. destruct Hc as [Ha Hc].
    apply negb_true_iff in Ha. rewrite Ha. rewrite (IH _ _ Hc).
    now rewrite append_assoc_string.
Qed.

Lemma components_slash r cur :
  components (String "/"%char r) cur = cur :: components r "".
Proof. reflexivity. Qed.

Lemma components_concat c p :
  Forall (fun x => slash_free x = true) (c :: p) ->
  components (String.concat "/" (c :: p)) "" = c :: p.
Proof.
  revert c. induction p as [|c2 p IH]; intros c Hall.
  - inversion Hall as [|? ? Hc _]. subst. cbn [String.concat].
    rewrite <- (append_nil_r_string c) at 1.
    now rewrite (components_slash_free c "" "" Hc).
  - inversion Hall as [|? ? Hc Hrest]. subst.
    change (String.concat "/" (c :: c2 :: p))
      with (c ++ String "/"%char (String.concat "/" (c2 :: p)))%string.
    rewrite (components_slash_free c _ "" Hc).
    rewrite components_slash. now rewrite (IH c2 Hrest).
Qed.

Lemma clean_slash_free c : clean c = true -> slash_free c = true.
Proof. unfold clean. intros H. now apply andb_prop in H. Qed.

Lemma filter_clean_id p :
  Forall (fun c => clean c = true) p ->
  filter (fun c => negb (String.eqb c "" || String.eqb c ".")) p = p.
Proof.
  induction 1 as [|c p Hc _ IH]; simpl; [reflexivity|].
  unfold clean in Hc. apply andb_prop in Hc. destruct Hc as [-> _].
  now rewrite IH.
Qed.

Lemma Path_str (p : path) :
  Forall (fun c => clean c = true) p -> Path (str p) = p.
Proof.
  intros Hclean. unfold Path, str. cbn.
  destruct p as [|c p]; [reflexivity|].
  rewrite components_concat.
  - now apply filter_clean_id.
  - eapply Forall_impl; [|exact Hclean]. intros a. apply clean_slash_free.
Qed.

(** The pieces [components] cuts are slash-free. *)
Lemma components_pieces s : forall cur,
  slash_free cur = true ->
  Forall (fun x => slash_free x = true) (components s cur).
Proof.
  induction s as [|a s IH]; intros cur Hcur; simpl.
  - now constructor.
  - destruct (Ascii.eqb a "/"%char) eqn:Ha.
    + constructor; [exact Hcur|]. now apply IH.
    + apply IH. clear IH. induction cur as [|x cur IHc]; simpl in *.
      * now rewrite Ha.
      * apply andb_prop in Hcur. destruct Hcur as [-> Hcur]. now apply IHc.
Qed.

Lemma Path_clean (s : string) : Forall (fun c => clean c = true) (Path s).
Proof.
  unfold Path. apply Forall_forall. intros c Hin.
  apply filter_In in Hin. destruct Hin as [Hin Hkeep].
  unfold clean. rewrite Hkeep. cbn.
  pose proof (components_pieces s "" eq_refl) as Hall.
  rewrite Forall_forall in Hall. now apply Hall.
Qed.

(** X4. [Path] undoes [str]: a path whose components are proper names
    (not empty, not ".", without a slash) is read back from its string as
    it was.  Components that [Path] itself produced are of that kind, so
    every path the script builds below a proper home directory survives
    being written to the pointer file and read from it. *)
Theorem Path_str_round_trip (p : path) (s : string) :
  Forall (fun c => clean c = true) p ->
  Path (str p) = p /\ Path (str (p // s)) = p // s.
Proof.
  intros Hp. split; [now apply Path_str|].
  apply Path_str. unfold div. apply Forall_app. split; [exact Hp|].
  apply Path_clean.
Qed.

Lemma Path_str_round_trip_witness :
  Path (str ["home"; "u"; "Documents"]) = ["home"; "u"; "Documents"]
  /\ Path (str (["home"; "u"; "Documents"] // "Spectra Processing/App"))
     = ["home"; "u"; "Documents"] // "Spectra Processing/App".
Proof.
  apply (Path_str_round_trip ["home"; "u"; "Documents"] "Spectra Processing/App").
  repeat constructor.
Defined.

(** ** The pointer file *)

Lemma put_under_dir p : forall n c x,
  is_dir_at n p -> exists n', put n (p ++ [c]) x = Some n'.
Proof.
  induction p as [|c0 p IH]; intros n c x [es Hdir]; simpl in *.
  - injection Hdir as ->. eauto.
  - destruct n as [d|es0]; [discriminate|].
    destruct (assoc c0 es0) as [n0|] eqn:Hc; [|discriminate].
    unfold child. rewrite Hc.
    destruct (IH n0 c x) as [n1 ->]; [now exists es|]. eauto.
Qed.

Lemma write_file_under_dir n p c d :
  is_dir_at n p -> ~ is_dir_at n (p ++ [c]) ->
  exists n', write_file n (p ++ [c]) d = Some n'.
Proof.
  intros [es Hdir] Hnot. unfold write_file.
  rewrite removelast_last, Hdir.
  destruct (lookup n (p ++ [c])) as [[d0|es0]|] eqn:Hcur.
  - apply put_under_dir. now exists es.
  - exfalso. apply Hnot. now exists es0.
  - apply put_under_dir. now exists es.
Qed.

(** X5. What [write_current] writes, [read_current] reads: after a
    write that returned, whatever the pointer file held before, the next
    read yields the record of that revision and path, and when the
    path's components are proper names the recorded path reads back as
    the path that was written. *)
Theorem write_then_read_current (E : Env) (sha : pyval) (d : path)
    (w w1 : World) :
  write_current E sha d w = (Ok tt, w1) ->
  read_current E w1 = (Ok (pointer_record sha d), w1)
  /\ (Forall (fun c => clean c = true) d ->
      pointer_of (fs w1) (CURRENT_FILE E) = Some (Recorded sha d)).
Proof.
  intros Hwrite. apply write_current_ok in Hwrite. destruct Hwrite as [_ Hcur].
  split.
  - unfold read_current, bind, get_fs, exists_. now rewrite Hcur.
  - intros Hclean. unfold pointer_of. rewrite Hcur.
    change (Some (Recorded sha (Path (str d))) = Some (Recorded sha d)).
    now rewrite (Path_str d Hclean).
Qed.

Lemma write_then_read_current_witness :
  let d := VERSIONS_DIR demo_env // "def456" in
  let w1 := snd (write_current demo_env (PStr "def456") d installed) in
  read_current demo_env w1 = (Ok (pointer_record (PStr "def456") d), w1)
  /\ (Forall (fun c => clean c = true) d ->
      pointer_of (fs w1) (CURRENT_FILE demo_env)
      = Some (Recorded (PStr "def456") d)).
Proof.
  intros d w1.
  apply (write_then_read_current demo_env (PStr "def456") d installed w1).
  vm_compute. reflexivity.
Defined.

(** X6. [write_current] returns whenever the application root is a
    directory and the pointer's path is not one; when it raises, the
    exception is [OSError] and the disk is as before. *)
Theorem write_current_outcomes (E : Env) (sha : pyval) (d : path) (w : World) :
  (is_dir_at (fs w) (APP_ROOT E) ->
   ~ is_dir_at (fs w) (CURRENT_FILE E) ->
   exists n', write_current E sha d w
              = (Ok tt, {| fs := n';
                           trace := trace w ++ [EvWriteCurrent sha d] |}))
  /\ (forall e w', write_current E sha d w = (Raise e, w') ->
        e = OSError /\ fs w' = fs w).
Proof.
  unfold write_current, update_fs, bind, emit, get_fs, set_fs, raise.
  cbn [fs trace].
  split.
  - intros Happ Hnot.
    destruct (write_file_under_dir (fs w) (APP_ROOT E) "current.json"
                (Json (PDict [("sha", sha); ("path", PStr (str d))]))
                Happ Hnot) as [n' Hw].
    change (APP_ROOT E ++ ["current.json"]) with (CURRENT_FILE E) in Hw.
    rewrite Hw. eauto.
  - intros e w'.
    destruct (write_file (fs w) (CURRENT_FILE E) _); [discriminate|].
    now intros [= <- <-].
Qed.

Lemma write_current_outcomes_witness :
  exists n', write_current demo_env (PStr "def456")
               (VERSIONS_DIR demo_env // "def456") corrupted
             = (Ok tt, {| fs := n';
                          trace := [EvWriteCurrent (PStr "def456")
                                      (VERSIONS_DIR demo_env // "def456")] |}).
Proof.
  apply (proj1 (write_current_outcomes demo_env (PStr "def456")
                  (VERSIONS_DIR demo_env // "def456") corrupted)).
  - eexists. vm_compute. reflexivity.
  - intros [es Hes]. vm_compute in Hes. discriminate.
Defined.

(** ** More on the store *)



(** ** More on environments *)

Lemma ensure_venv_inv (E : Env) (d : path) (w w' : World) (r : result path) :
  ensure_venv E d w = (r, w') ->
  (exists_ (fs w) (interpreter E (d // ".venv")) = true
   /\ r = Ok (interpreter E (d // ".venv")) /\ w' = w)
  \/ (exists_ (fs w) (interpreter E (d // ".venv")) = false
      /\ Z.eqb (returncode E (CmdVenv (d // ".venv"))) 0 = false
      /\ r = Raise CalledProcessError /\ w' = venv_started (d // ".venv") w)
  \/ (exists_ (fs w) (interpreter E (d // ".venv")) = false
      /\ Z.eqb (returncode E (CmdVenv (d // ".venv"))) 0 = true
      /\ put (fs w) (interpreter E (d // ".venv")) (File (Raw "")) = None
      /\ r = Raise CalledProcessError /\ w' = venv_started (d // ".venv") w)
  \/ (exists n',
        exists_ (fs w) (interpreter E (d // ".venv")) = false
        /\ Z.eqb (returncode E (CmdVenv (d // ".venv"))) 0 = true
        /\ put (fs w) (interpreter E (d // ".venv")) (File (Raw "")) = Some n'
        /\ w' = {| fs := n';
                   trace := trace (venv_started (d // ".venv") w) ++
                            [EvSubprocess
                               (CmdPipUpgrade (interpreter E (d // ".venv")))] |}
        /\ r = if Z.eqb (returncode E
                           (CmdPipUpgrade (interpreter E (d // ".venv")))) 0
               then Ok (interpreter E (d // ".venv"))
               else Raise CalledProcessError).
Proof.
  unfold ensure_venv, bind, get_fs.
  destruct (exists_ (fs w) (interpreter E (d // ".venv"))) eqn:Hex; cbn.
  - intros [= <- <-]. auto.
  - unfold subprocess_run, bind, emit, get_fs, set_fs, raise, ret. cbn.
    destruct (Z.eqb (returncode E (CmdVenv (d // ".venv"))) 0); cbn.
    + destruct (put (fs w) (interpreter E (d // ".venv")) (File (Raw "")))
        as [n'|]; cbn.
      * destruct (Z.eqb (returncode E (CmdPipUpgrade _)) 0); cbn;
          intros [= <- <-]; right; right; right; exists n'; auto.
      * intros [= <- <-]. right. right. left. auto.
    + intros [= <- <-]. right. left. auto.
Qed.

(** X8. An [ensure_venv] that returns leaves the interpreter on disk, so
    that calling it again on the same artifact returns the same
    interpreter and starts no child process. *)
Theorem ensure_venv_settles (E : Env) (d py : path) (w w1 : World) :
  ensure_venv E d w = (Ok py, w1) ->
  exists_ (fs w1) py = true /\ ensure_venv E d w1 = (Ok py, w1).
Proof.
  intros Hrun.
  assert (Hex : exists_ (fs w1) (interpreter E (d // ".venv")) = true).
  { destruct (ensure_venv_inv E d w w1 _ Hrun)
      as [(Hex & _ & ->)|[(_ & _ & He & _)|[(_ & _ & _ & He & _)
                                           |(n' & _ & _ & Hput & -> & _)]]];
      try discriminate; [exact Hex|].
    cbn. unfold exists_. now rewrite (lookup_put_same _ _ _ _ Hput). }
  apply ensure_venv_ok_py in Hrun. subst py. split; [exact Hex|].
  unfold ensure_venv, bind, get_fs. now rewrite Hex.
Qed.

Lemma ensure_venv_settles_witness :
  let d := ["home"; "u"; "project"] in
  let py := interpreter demo_env (d // ".venv") in
  let w1 := snd (ensure_venv demo_env d fresh) in
  exists_ (fs w1) py = true /\ ensure_venv demo_env d w1 = (Ok py, w1).
Proof.
  intros d py w1. apply (ensure_venv_settles demo_env d py fresh w1).
  vm_compute. reflexivity.
Defined.

(** X9. The upgrade of pip is tried once only.  When the environment is
    created but the upgrade of pip, setuptools and wheel fails,
    [ensure_venv] raises [CalledProcessError]; the interpreter is on disk
    by then, so the next call finds it, starts nothing and returns as if
    the environment were complete. *)
Theorem pip_upgrade_not_retried (E : Env) (d : path) (w : World) (n' : node) :
  let venv_dir := d // ".venv" in
  let py := interpreter E venv_dir in
  exists_ (fs w) py = false ->
  returncode E (CmdVenv venv_dir) = 0%Z ->
  put (fs w) py (File (Raw "")) = Some n' ->
  returncode E (CmdPipUpgrade py) <> 0%Z ->
  let w1 := {| fs := n';
               trace := trace w ++ [EvSubprocess (CmdVenv venv_dir);
                                    EvSubprocess (CmdPipUpgrade py)] |} in
  ensure_venv E d w = (Raise CalledProcessError, w1)
  /\ ensure_venv E d w1 = (Ok py, w1).
Proof.
  intros venv_dir py Hex Hvenv Hput Hpip w1.
  apply Z.eqb_neq in Hpip. split.
  - unfold ensure_venv, bind at 1, get_fs. fold venv_dir py. rewrite Hex.
    unfold subprocess_run, bind, emit, get_fs, set_fs, raise, ret. cbn.
    rewrite Hvenv. cbn. fold py. rewrite Hput. cbn. rewrite Hpip.
    unfold w1. now rewrite <- app_assoc.
  - unfold ensure_venv, bind, get_fs. fold venv_dir py.
    unfold exists_. cbn. now rewrite (lookup_put_same _ _ _ _ Hput).
Qed.

Lemma pip_upgrade_not_retried_witness :
  let E := {| home := home demo_env; windows := false;
              api_reply := api_reply demo_env;
              zipball_reply := zipball_reply demo_env;
              returncode := fun c =>
                match c with CmdPipUpgrade _ => 1%Z | _ => 0%Z end |} in
  let d := ["home"; "u"; "project"] in
  exists w1,
    ensure_venv E d fresh = (Raise CalledProcessError, w1)
    /\ ensure_venv E d w1 = (Ok (interpreter E (d // ".venv")), w1).
Proof.
  intros E d. eexists.
  refine (pip_upgrade_not_retried E d fresh _ eq_refl eq_refl eq_refl _).
  cbn. discriminate.
Defined.

(** ** More on seeding *)

Lemma not_exists_lookup n p : exists_ n p = false -> lookup n p = None.
Proof. unfold exists_. now destruct (lookup n p). Qed.

(** X10. With the data directory in place and no user data file yet,
    seeding copies the packaged resource if the artifact has one and the
    file at the artifact's top otherwise: when the chosen source is a
    regular file, [seed_data_if_missing] returns, the user's data file
    holds the source's contents, every file that was on disk is
    unchanged, one line is printed, and seeding again does nothing. *)
Theorem seed_copies_first_candidate (E : Env) (d : path) (w : World)
    (dat : data) :
  is_dir_at (fs w) (DATA_DIR E) ->
  exists_ (fs w) (seed_dest E) = false ->
  lookup (fs w) (if exists_ (fs w) (seed_candidate1 d) then seed_candidate1 d
                 else seed_candidate2 d) = Some (File dat) ->
  exists n',
    seed_data_if_missing E d w
    = (Ok tt, {| fs := n';
                 trace := trace w ++
                   [EvPrint [Lit "Seeded data file: "; FmtPath (seed_dest E)]] |})
    /\ lookup n' (seed_dest E) = Some (File dat)
    /\ (forall q x, lookup (fs w) q = Some (File x) ->
                    lookup n' q = Some (File x))
    /\ seed_data_if_missing E d
         {| fs := n';
            trace := trace w ++
              [EvPrint [Lit "Seeded data file: "; FmtPath (seed_dest E)]] |}
       = (Ok tt, {| fs := n';
                    trace := trace w ++
                      [EvPrint [Lit "Seeded data file: "; FmtPath (seed_dest E)]] |}).
Proof.
  intros Hdata Hdest Hsrc.
  assert (Hfree : ~ is_dir_at (fs w) (DATA_DIR E ++ ["fluorophor_data.txt"])).
  { intros [es Hes]. apply not_exists_lookup in Hdest.
    change (seed_dest E) with (DATA_DIR E ++ ["fluorophor_data.txt"]) in Hdest.
    congruence. }
  destruct (write_file_under_dir (fs w) (DATA_DIR E) "fluorophor_data.txt" dat
              Hdata Hfree) as [n' Hwrite].
  change (DATA_DIR E ++ ["fluorophor_data.txt"]) with (seed_dest E) in Hwrite.
  assert (Hput := write_file_put _ _ _ _ Hwrite).
  assert (Hnew : lookup n' (seed_dest E) = Some (File dat))
    by exact (lookup_put_same _ _ _ _ Hput).
  exists n'. split; [|split; [exact Hnew|split]].
  - unfold seed_data_if_missing, bind at 1, get_fs.
    fold (seed_dest E) (seed_candidate1 d) (seed_candidate2 d).
    rewrite Hdest.
    assert (Hex : exists_ (fs w)
                    (if exists_ (fs w) (seed_candidate1 d)
                     then seed_candidate1 d else seed_candidate2 d) = true)
      by (unfold exists_ at 1; now rewrite Hsrc).
    rewrite Hex.
    assert (Hcopy : copy2 (if exists_ (fs w) (seed_candidate1 d)
                           then seed_candidate1 d else seed_candidate2 d)
                      (seed_dest E) w
                    = (Ok tt, {| fs := n'; trace := trace w |})).
    { unfold copy2, bind at 1, get_fs. rewrite Hsrc.
      exact (update_fs_ok _ w _ Hwrite). }
    now rewrite (bind_ok _ _ _ _ _ Hcopy).
  - intros q x Hq.
    exact (lookup_put_fresh_file _ _ _ _ _ _ Hput (not_exists_lookup _ _ Hdest) Hq).
  - unfold seed_data_if_missing, bind, get_fs. fold (seed_dest E).
    cbn [fs]. unfold exists_. now rewrite Hnew.
Qed.

Lemma seed_copies_first_candidate_witness :
  let w := {| fs := fs (snd (ensure_dirs demo_env
                               (snd (install_from_commit_zip demo_env
                                       (PStr "abc123") fresh))));
              trace := [] |} in
  exists n',
    seed_data_if_missing demo_env (VERSIONS_DIR demo_env // "abc123") w
    = (Ok tt, {| fs := n';
                 trace := [EvPrint [Lit "Seeded data file: ";
                                    FmtPath (seed_dest demo_env)]] |})
    /\ lookup n' (seed_dest demo_env) = Some (File (Raw "seed")).
Proof.
  intros w.
  destruct (seed_copies_first_candidate demo_env
              (VERSIONS_DIR demo_env // "abc123") w (Raw "seed"))
    as (n' & Hrun & Hnew & _).
  - eexists. vm_compute. reflexivity.
  - reflexivity.
  - reflexivity.
  - exists n'. split; [exact Hrun|exact Hnew].
Defined.

(** ** Runs of [main], step by step *)

Lemma read_current_stored (E : Env) (w : World) :
  read_current E w = (stored (fs w) (CURRENT_FILE E), w).
Proof.
  unfold read_current, stored, bind, get_fs, exists_.
  now destruct (lookup (fs w) (CURRENT_FILE E)) as [[[raw|v]|es]|].
Qed.

(** [main] is: create the directories, read the pointer, take its
    fields, decide. *)
Lemma main_steps (E : Env) (args : Args) (w w1 : World) :
  ensure_dirs E w = (Ok tt, w1) ->
  main E args w
  = match stored (fs w1) (CURRENT_FILE E) with
    | Raise e => (Raise e, w1)
    | Ok current =>
        match fields current with
        | Raise e => (Raise e, w1)
        | Ok (sha, cpath) => decide_and_run E args sha cpath w1
        end
    end.
Proof.
  intros Hdirs. unfold main. rewrite (bind_ok _ _ _ _ _ Hdirs).
  unfold bind at 1. rewrite read_current_stored.
  destruct (stored (fs w1) (CURRENT_FILE E)) as [current|e]; [|reflexivity].
  unfold fields, bind, lift, ret, raise.
  destruct (truthy current); [|reflexivity].
  destruct (subscript current (KStr "sha")) as [sha|e]; [|reflexivity].
  destruct (subscript current (KStr "path")) as [[| | |s| |]|e]; reflexivity.
Qed.

Lemma main_dirs_fail (E : Env) (args : Args) (w w1 : World) (e : exn) :
  ensure_dirs E w = (Raise e, w1) -> main E args w = (Raise e, w1).
Proof. intros Hdirs. unfold main. now rewrite (bind_raise _ _ _ _ _ Hdirs). Qed.

Lemma http_json_inv (E : Env) (url : text) (w w' : World) r :
  http_json E url w = (r, w') ->
  w' = {| fs := fs w; trace := trace w ++ [EvHttpJson url] |}.
Proof.
  unfold http_json, bind, emit, raise, ret.
  destruct (api_reply E url) as [[raw|v]|]; now intros [= _ <-].
Qed.

(** ** Nothing is ever deleted *)

Lemma put_keeps_exists p : forall n x n' q,
  put n p x = Some n' ->
  ~ is_dir_at n p ->
  exists_ n q = true -> exists_ n' q = true.
Proof.
  unfold exists_.
  induction p as [|c p IH]; intros n x n' q; simpl.
  - intros [= <-] Hp Hq. destruct n as [d|es0].
    + destruct q; [reflexivity|discriminate].
    + exfalso. apply Hp. now exists es0.
  - destruct n as [d|es]; [discriminate|].
    destruct (put (child c es) p x) as [n1|] eqn:Hput; [|discriminate].
    intros [= <-] Hp Hq.
    destruct q as [|c' q]; [reflexivity|]. simpl in Hq |- *.
    destruct (String.eqb c c') eqn:Hc.
    + apply String.eqb_eq in Hc. subst c'. rewrite assoc_set_same.
      unfold child in Hput. unfold is_dir_at in Hp. simpl in Hp.
      destruct (assoc c es) as [n0|]; [|discriminate].
      exact (IH _ _ _ _ Hput Hp Hq).
    + apply String.eqb_neq in Hc. now rewrite assoc_set_other.
Qed.

Lemma mkdirs_keeps_exists p n n' q :
  mkdirs n p = Some n' -> exists_ n q = true -> exists_ n' q = true.
Proof.
  intros Hmk. unfold exists_.
  destruct (lookup n q) as [[d|es]|] eqn:Hq; [| |discriminate]; intros _.
  - now rewrite (mkdirs_keeps_files _ _ _ _ _ Hmk Hq).
  - destruct (mkdirs_keeps_dirs _ _ _ q Hmk) as [es' ->]; [now exists es|].
    reflexivity.
Qed.

Lemma grows_refl n : grows n n.
Proof. split; auto. Qed.

Lemma grows_trans n1 n2 n3 : grows n1 n2 -> grows n2 n3 -> grows n1 n3.
Proof. intros [E1 D1] [E2 D2]. split; auto. Qed.

Lemma grows_put n p x n' :
  put n p x = Some n' -> ~ is_dir_at n p -> grows n n'.
Proof.
  intros Hput Hp. split; intros q.
  - exact (put_keeps_exists _ _ _ _ q Hput Hp).
  - exact (put_keeps_dirs _ _ _ _ q Hput Hp).
Qed.

Lemma grows_mkdirs n p n' : mkdirs n p = Some n' -> grows n n'.
Proof.
  intros Hmk. split; intros q.
  - exact (mkdirs_keeps_exists _ _ _ q Hmk).
  - exact (mkdirs_keeps_dirs _ _ _ q Hmk).
Qed.

Lemma grows_write_file n p d n' : write_file n p d = Some n' -> grows n n'.
Proof.
  intros Hw. apply (grows_put _ p (File d)); [exact (write_file_put _ _ _ _ Hw)|].
  intros [es Hes]. unfold write_file in Hw. rewrite Hes in Hw.
  destruct (lookup n (removelast p)) as [[|]|]; discriminate.
Qed.

Lemma not_exists_not_dir n p : exists_ n p = false -> ~ is_dir_at n p.
Proof. intros Hex [es Hes]. unfold exists_ in Hex. now rewrite Hes in Hex. Qed.

Lemma world_grows_refl w : world_grows w w.
Proof. apply grows_refl. Qed.

Lemma world_grows_trans w1 w2 w3 :
  world_grows w1 w2 -> world_grows w2 w3 -> world_grows w1 w3.
Proof. apply grows_trans. Qed.

Lemma grows_bind {A B : Type} (m : M A) (f : A -> M B) :
  stable world_grows m -> (forall a, stable world_grows (f a)) ->
  stable world_grows (bind m f).
Proof. apply stable_bind, world_grows_trans. Qed.

Lemma grows_emit ev : stable world_grows (emit ev).
Proof. intros w r w' [= <- <-]. apply grows_refl. Qed.

Lemma grows_update_fs f :
  (forall n n', f n = Some n' -> grows n n') ->
  stable world_grows (update_fs f).
Proof.
  intros Hf w r w' Hrun. apply update_fs_inv in Hrun.
  destruct Hrun as [(n' & Hfn & _ & ->)|(_ & _ & ->)].
  - exact (Hf _ _ Hfn).
  - apply grows_refl.
Qed.

Ltac grows_steps :=
  repeat first
    [ apply grows_update_fs
    | apply grows_bind; [|intros ?]
    | apply stable_ret, world_grows_refl
    | apply stable_raise, world_grows_refl
    | apply stable_lift, world_grows_refl
    | apply stable_get_fs, world_grows_refl
    | apply grows_emit
    | match goal with
      | |- stable _ (match ?x with _ => _ end) => destruct x
      | |- stable _ (if ?x then _ else _) => destruct x
      end ].

Section Grows.

Variable E : Env.

Lemma grows_ensure_dirs : stable world_grows (ensure_dirs E).
Proof. unfold ensure_dirs. grows_steps; intros n n'; apply grows_mkdirs. Qed.

Lemma grows_http_json url : stable world_grows (http_json E url).
Proof. unfold http_json. grows_steps. Qed.

Lemma grows_get_default_branch : stable world_grows (get_default_branch E).
Proof.
  unfold get_default_branch. cbn.
  apply grows_bind; [apply grows_http_json|]. intros repo.
  apply stable_lift, world_grows_refl.
Qed.

Lemma grows_get_latest_commit_sha branch :
  stable world_grows (get_latest_commit_sha E branch).
Proof.
  unfold get_latest_commit_sha.
  apply grows_bind; [apply grows_http_json|]. intros commits. grows_steps.
Qed.

Lemma grows_install_from_commit_zip sha :
  stable world_grows (install_from_commit_zip E sha).
Proof.
  unfold install_from_commit_zip.
  destruct sha as [| | |s| |]; try apply stable_raise, world_grows_refl.
  unfold download_bytes, extract_zip, copytree. grows_steps.
  intros n n'. destruct (exists_ n (VERSIONS_DIR E // s)) eqn:Hex;
    [discriminate|].
  intros Hput. exact (grows_put _ _ _ _ Hput (not_exists_not_dir _ _ Hex)).
Qed.

Lemma grows_ensure_venv d : stable world_grows (ensure_venv E d).
Proof.
  intros w r w' Hrun.
  destruct (ensure_venv_inv E d w w' r Hrun)
    as [(_ & _ & ->)|[(_ & _ & _ & ->)|[(_ & _ & _ & _ & ->)
                                       |(n' & Hex & _ & Hput & -> & _)]]];
    try apply grows_refl.
  exact (grows_put _ _ _ _ Hput (not_exists_not_dir _ _ Hex)).
Qed.

Lemma grows_run_app py : stable world_grows (run_app E py).
Proof. unfold run_app. grows_steps. Qed.

Lemma grows_launch d : stable world_grows (launch E d).
Proof.
  unfold launch. apply grows_bind; [apply grows_ensure_venv|].
  intros py. apply grows_run_app.
Qed.

Lemma grows_pip_install_project py d :
  stable world_grows (pip_install_project E py d).
Proof.
  intros w r w'. unfold pip_install_project, subprocess_run, bind, emit, raise, ret.
  cbn. destruct (Z.eqb _ 0); intros [= <- <-]; apply grows_refl.
Qed.

Lemma grows_seed_data_if_missing d :
  stable world_grows (seed_data_if_missing E d).
Proof.
  unfold seed_data_if_missing, copy2, print. grows_steps.
  all: intros n n'; apply grows_write_file.
Qed.

Lemma grows_write_current sha d : stable world_grows (write_current E sha d).
Proof.
  unfold write_current. grows_steps. intros n n'. apply grows_write_file.
Qed.

Lemma grows_install_latest branch latest :
  stable world_grows (install_latest E branch latest).
Proof.
  unfold install_latest, print.
  apply grows_bind; [apply grows_emit|]. intros _.
  apply grows_bind; [apply grows_install_from_commit_zip|]. intros d.
  apply grows_bind; [apply grows_ensure_venv|]. intros py.
  apply grows_bind; [apply grows_pip_install_project|]. intros _.
  apply grows_bind; [apply grows_seed_data_if_missing|]. intros _.
  apply grows_bind; [apply grows_write_current|]. intros _.
  apply grows_run_app.
Qed.

Lemma grows_decide_and_run args sha cpath :
  stable world_grows (decide_and_run E args sha cpath).
Proof.
  unfold decide_and_run, already_up_to_date, print.
  destruct (negb (no_update args)).
  - apply grows_bind; [apply grows_get_default_branch|]. intros branch.
    apply grows_bind; [apply grows_get_latest_commit_sha|]. intros latest.
    apply grows_bind; [apply stable_get_fs, world_grows_refl|]. intros n.
    destruct (needs_install _ _ _ _ _); [apply grows_install_latest|].
    apply grows_bind; [apply grows_emit|]. intros _.
    destruct cpath; [apply grows_launch|apply stable_raise, world_grows_refl].
  - apply grows_bind; [apply stable_get_fs, world_grows_refl|]. intros n.
    destruct cpath as [p|]; [|apply stable_raise, world_grows_refl].
    destruct (negb _); [apply stable_raise, world_grows_refl|apply grows_launch].
Qed.

Lemma grows_main args : stable world_grows (main E args).
Proof.
  intros w r w' Hrun.
  destruct (ensure_dirs E w) as [[[]|e] w1] eqn:Hdirs.
  - apply (world_grows_trans _ w1); [exact (grows_ensure_dirs _ _ _ Hdirs)|].
    rewrite (main_steps E args w w1 Hdirs) in Hrun.
    destruct (stored _ _) as [current|e];
      [|injection Hrun as _ <-; apply grows_refl].
    destruct (fields current) as [[sha cpath]|e];
      [|injection Hrun as _ <-; apply grows_refl].
    exact (grows_decide_and_run _ _ _ _ _ _ Hrun).
  - rewrite (main_dirs_fail E args w w1 e Hdirs) in Hrun.
    injection Hrun as _ <-. exact (grows_ensure_dirs _ _ _ Hdirs).
Qed.

End Grows.

(** X11. [main] never deletes anything: whatever path exists on disk
    before a run exists after it, however the run ends, and what was a
    directory is still a directory. *)
Theorem main_never_deletes (E : Env) (args : Args) (w w' : World)
    (r : result Z) (q : path) :
  main E args w = (r, w') ->
  (exists_ (fs w) q = true -> exists_ (fs w') q = true)
  /\ (is_dir_at (fs w) q -> is_dir_at (fs w') q).
Proof.
  intros Hrun. destruct (grows_main E args w r w' Hrun) as [Hex Hdir]. auto.
Qed.

Lemma main_never_deletes_witness :
  (exists_ (fs installed) (VERSIONS_DIR demo_env // "abc123") = true ->
   exists_ (fs (snd (main failing_env update installed)))
     (VERSIONS_DIR demo_env // "abc123") = true)
  /\ (is_dir_at (fs installed) (VERSIONS_DIR demo_env // "abc123") ->
      is_dir_at (fs (snd (main failing_env update installed)))
        (VERSIONS_DIR demo_env // "abc123")).
Proof.
  apply (main_never_deletes failing_env update installed _
           (Raise CalledProcessError)).
  vm_compute. reflexivity.
Defined.

(** ** How a run ends *)

Lemma ensure_venv_ok_exists (E : Env) (d py : path) (w w1 : World) :
  ensure_venv E d w = (Ok py, w1) ->
  py = interpreter E (d // ".venv") /\ exists_ (fs w1) py = true.
Proof.
  intros Hrun. assert (Hpy := ensure_venv_ok_py E d py w w1 Hrun).
  split; [exact Hpy|]. subst py.
  destruct (ensure_venv_inv E d w w1 _ Hrun)
    as [(Hex & _ & ->)|[(_ & _ & He & _)|[(_ & _ & _ & He & _)
                                         |(n' & _ & _ & Hput & -> & _)]]];
    try discriminate; [exact Hex|].
  cbn. unfold exists_. now rewrite (lookup_put_same _ _ _ _ Hput).
Qed.

Lemma run_app_inv (E : Env) (py : path) (w w' : World) r :
  run_app E py w = (r, w') ->
  r = Ok (returncode E (CmdRun py))
  /\ w' = {| fs := fs w; trace := trace w ++ [EvSubprocess (CmdRun py)] |}.
Proof. unfold run_app, bind, emit, ret. now intros [= <- <-]. Qed.

(** What a launch that returned has done. *)
Lemma launch_ok (E : Env) (d : path) (w w' : World) (code : Z) :
  launch E d w = (Ok code, w') ->
  code = returncode E (CmdRun (interpreter E (d // ".venv")))
  /\ exists_ (fs w') (interpreter E (d // ".venv")) = true
  /\ exists tr, trace w' =
                tr ++ [EvSubprocess (CmdRun (interpreter E (d // ".venv")))].
Proof.
  unfold launch. intros Hrun. apply bind_inv in Hrun.
  destruct Hrun as [(py & w1 & Hvenv & Hrun)|(e & _ & He)]; [|discriminate].
  apply ensure_venv_ok_exists in Hvenv. destruct Hvenv as [-> Hex].
  apply run_app_inv in Hrun. destruct Hrun as [[= ->] ->]. cbn. eauto.
Qed.

(** What an install that returned has done. *)
Lemma install_latest_ok (E : Env) (branch latest : pyval) (w w' : World)
    (code : Z) :
  install_latest E branch latest w = (Ok code, w') ->
  exists s,
    latest = PStr s
    /\ code = returncode E
                (CmdRun (interpreter E (VERSIONS_DIR E // s // ".venv")))
    /\ exists_ (fs w') (interpreter E (VERSIONS_DIR E // s // ".venv")) = true
    /\ exists_ (fs w') (VERSIONS_DIR E // s) = true
    /\ lookup (fs w') (CURRENT_FILE E)
       = Some (File (Json (pointer_record (PStr s) (VERSIONS_DIR E // s))))
    /\ exists tr,
         trace w' =
         tr ++ [EvSubprocess
                  (CmdRun (interpreter E (VERSIONS_DIR E // s // ".venv")))].
Proof.
  unfold install_latest. intros Hrun.
  apply bind_inv in Hrun.
  destruct Hrun as [(u0 & w0 & _ & Hrun)|(e & _ & He)]; [|discriminate].
  apply bind_inv in Hrun.
  destruct Hrun as [(d & w1 & Hinst & Hrun)|(e & _ & He)]; [|discriminate].
  destruct (install_ok_path _ _ _ _ _ Hinst) as (s & -> & ->).
  apply install_ok_exists in Hinst. destruct Hinst as [_ Htarget].
  apply bind_inv in Hrun.
  destruct Hrun as [(py & w2 & Hvenv & Hrun)|(e & _ & He)]; [|discriminate].
  assert (G2 := grows_ensure_venv E _ _ _ _ Hvenv).
  apply ensure_venv_ok_exists in Hvenv. destruct Hvenv as [-> Hpy].
  apply bind_inv in Hrun.
  destruct Hrun as [(u3 & w3 & Hpip & Hrun)|(e & _ & He)]; [|discriminate].
  apply grows_pip_install_project in Hpip.
  apply bind_inv in Hrun.
  destruct Hrun as [(u4 & w4 & Hseed & Hrun)|(e & _ & He)]; [|discriminate].
  apply grows_seed_data_if_missing in Hseed.
  apply bind_inv in Hrun.
  destruct Hrun as [(u5 & w5 & Hwrite & Hrun)|(e & _ & He)]; [|discriminate].
  destruct u5. assert (G5 := grows_write_current E _ _ _ _ _ Hwrite).
  apply write_current_ok in Hwrite. destruct Hwrite as [_ Hcur].
  apply run_app_inv in Hrun. destruct Hrun as [[= ->] ->]. cbn.
  assert (G : world_grows w1 w5).
  { eapply world_grows_trans; [exact G2|].
    eapply world_grows_trans; [exact Hpip|].
    eapply world_grows_trans; [exact Hseed|exact G5]. }
  exists s. repeat split; try reflexivity.
  - apply G5, Hseed, Hpip. exact Hpy.
  - apply G. exact Htarget.
  - exact Hcur.
  - eauto.
Qed.

Lemma decide_and_run_ok (E : Env) (args : Args) (sha : pyval)
    (cpath : option path) (w w' : World) (code : Z) :
  decide_and_run E args sha cpath w = (Ok code, w') ->
  (exists branch latest w3,
     install_latest E branch latest w3 = (Ok code, w')
     /\ fs w3 = fs w /\ no_update args = false)
  \/ (exists p w3,
        cpath = Some p /\ launch E p w3 = (Ok code, w')
        /\ fs w3 = fs w /\ exists_ (fs w) p = true).
Proof.
  unfold decide_and_run. destruct (no_update args); cbn [negb].
  - unfold bind at 1, get_fs. destruct cpath as [p|]; [|discriminate].
    destruct (exists_ (fs w) p) eqn:Hex; cbn [negb]; [|discriminate].
    intros Hrun. right. exists p, w. auto.
  - intros Hrun. apply bind_inv in Hrun.
    destruct Hrun as [(branch & w1 & H1 & Hrun)|(e & _ & He)]; [|discriminate].
    apply bind_inv in Hrun.
    destruct Hrun as [(latest & w2 & H2 & Hrun)|(e & _ & He)]; [|discriminate].
    assert (Hfs : fs w2 = fs w).
    { unfold get_default_branch in H1. cbn in H1.
      apply bind_inv in H1.
      destruct H1 as [(repo & wa & Ha & H1)|(e & _ & He)]; [|discriminate].
      apply http_json_inv in Ha. unfold lift in H1.
      injection H1 as _ <-. subst wa.
      unfold get_latest_commit_sha in H2. apply bind_inv in H2.
      destruct H2 as [(commits & wb & Hb & H2)|(e & _ & He)]; [|discriminate].
      apply http_json_inv in Hb. subst wb.
      destruct (negb (truthy commits)); [discriminate|].
      unfold bind, lift in H2.
      destruct (subscript commits (KInt 0)); [|discriminate].
      now injection H2 as _ <-. }
    unfold bind at 1, get_fs in Hrun.
    destruct (needs_install _ _ _ _ _) eqn:Hneeds.
    + left. exists branch, latest, w2. auto.
    + right. unfold already_up_to_date, print in Hrun.
      unfold bind at 1, emit in Hrun.
      destruct cpath as [p|]; [|discriminate].
      exists p. eexists.
      split; [reflexivity|split; [exact Hrun|split; [exact Hfs|]]].
      unfold needs_install in Hneeds. rewrite Hfs in Hneeds.
      apply orb_false_elim in Hneeds. destruct Hneeds as [_ Hneeds].
      now apply negb_false_iff in Hneeds.
Qed.

(** A run that returned went through [ensure_dirs], a pointer that
    could be read, and a decision that returned. *)
Lemma main_ok_inv (E : Env) (args : Args) (w w' : World) (code : Z) :
  main E args w = (Ok code, w') ->
  exists w1 current sha cpath,
    ensure_dirs E w = (Ok tt, w1)
    /\ stored (fs w1) (CURRENT_FILE E) = Ok current
    /\ fields current = Ok (sha, cpath)
    /\ decide_and_run E args sha cpath w1 = (Ok code, w').
Proof.
  intros Hrun. destruct (ensure_dirs E w) as [[[]|e] w1] eqn:Hdirs.
  - rewrite (main_steps E args w w1 Hdirs) in Hrun.
    destruct (stored _ _) as [current|e] eqn:Hst; [|discriminate].
    destruct (fields current) as [[sha cpath]|e] eqn:Hf; [|discriminate].
    exists w1, current, sha, cpath. auto.
  - now rewrite (main_dirs_fail E args w w1 e Hdirs) in Hrun.
Qed.

(** X12. The exit status of the launcher is the application's.  A run
    of [main] that returns has started the application as its last
    action, from an interpreter that is on disk, and returns the status
    the application exited with. *)
Theorem exit_status_is_the_applications (E : Env) (args : Args)
    (w w' : World) (code : Z) :
  main E args w = (Ok code, w') ->
  exists py tr,
    code = returncode E (CmdRun py)
    /\ trace w' = tr ++ [EvSubprocess (CmdRun py)]
    /\ exists_ (fs w') py = true.
Proof.
  intros Hrun.
  destruct (main_ok_inv E args w w' code Hrun)
    as (w1 & current & sha & cpath & _ & _ & _ & Hdecide).
  destruct (decide_and_run_ok E args sha cpath w1 w' code Hdecide)
    as [(branch & latest & w3 & Hinst & _)|(p & w3 & _ & Hlaunch & _)].
  - destruct (install_latest_ok E branch latest w3 w' code Hinst)
      as (s & _ & Hcode & Hpy & _ & _ & tr & Htr).
    eauto.
  - destruct (launch_ok E p w3 w' code Hlaunch) as (Hcode & Hpy & tr & Htr).
    eauto.
Qed.

Lemma exit_status_is_the_applications_witness :
  exists py tr,
    7%Z = returncode demo_env (CmdRun py)
    /\ trace (snd (main demo_env update fresh)) = tr ++ [EvSubprocess (CmdRun py)]
    /\ exists_ (fs (snd (main demo_env update fresh))) py = true.
Proof.
  apply (exit_status_is_the_applications demo_env update fresh).
  vm_compute. reflexivity.
Defined.

(** ** The pointer after a run *)

Lemma fields_path_file (n : node) (cf : path) (current sha : pyval) (p : path) :
  stored n cf = Ok current ->
  fields current = Ok (sha, Some p) ->
  lookup n cf = Some (File (Json current)).
Proof.
  unfold stored. destruct (lookup n cf) as [[[raw|v]|es]|]; try discriminate.
  - now intros [= ->].
  - intros [= <-]. discriminate.
Qed.

Lemma main_raise_keeps (E : Env) (args : Args) (w w' : World) (e : exn) :
  main E args w = (Raise e, w') -> keeps (CURRENT_FILE E) w w'.
Proof.
  intros Hrun. destruct (ensure_dirs E w) as [[[]|e1] w1] eqn:Hdirs.
  - apply (keeps_trans _ _ w1); [exact (keeps_ensure_dirs E _ _ _ Hdirs)|].
    rewrite (main_steps E args w w1 Hdirs) in Hrun.
    destruct (stored _ _) as [current|e2] eqn:Hst;
      [|injection Hrun as _ <-; apply keeps_refl].
    destruct (fields current) as [[sha [p|]]|e2] eqn:Hf.
    + eapply decide_raise_keeps; [exact Hrun|]. right.
      rewrite (fields_path_file _ _ _ _ _ Hst Hf). eauto.
    + eapply decide_raise_keeps; [exact Hrun|]. now left.
    + injection Hrun as _ <-. apply keeps_refl.
  - rewrite (main_dirs_fail E args w w1 e1 Hdirs) in Hrun.
    injection Hrun as _ <-. exact (keeps_ensure_dirs E _ _ _ Hdirs).
Qed.

(** X13. Whenever a run of [main] changes what is at the pointer's
    path, the new contents are the record of a revision together with
    the path of that revision's entry in the store, and both the entry
    and its interpreter are on disk when the run ends. *)
Theorem pointer_names_an_artifact (E : Env) (args : Args) (w w' : World)
    (r : result Z) :
  main E args w = (r, w') ->
  lookup (fs w') (CURRENT_FILE E) = lookup (fs w) (CURRENT_FILE E)
  \/ exists s,
       lookup (fs w') (CURRENT_FILE E)
       = Some (File (Json (pointer_record (PStr s) (VERSIONS_DIR E // s))))
       /\ exists_ (fs w') (VERSIONS_DIR E // s) = true
       /\ exists_ (fs w') (interpreter E (VERSIONS_DIR E // s // ".venv")) = true.
Proof.
  intros Hrun. destruct r as [code|e];
    [|left; exact (main_raise_keeps E args w w' e Hrun)].
  destruct (main_ok_inv E args w w' code Hrun)
    as (w1 & current & sha & cpath & Hdirs & Hst & Hf & Hdecide).
  destruct (decide_and_run_ok E args sha cpath w1 w' code Hdecide)
    as [(branch & latest & w3 & Hinst & _)
       |(p & w3 & -> & Hlaunch & Hfs & _)].
  - right.
    destruct (install_latest_ok E branch latest w3 w' code Hinst)
      as (s & _ & _ & Hpy & Htarget & Hcur & _).
    exists s. auto.
  - left. assert (Hfile := fields_path_file _ _ _ _ _ Hst Hf).
    rewrite <- (keeps_ensure_dirs E _ _ _ Hdirs). rewrite Hfile.
    apply (launch_keeps_file E p _ _ _ _ _ Hlaunch). now rewrite Hfs.
Qed.

Lemma pointer_names_an_artifact_witness :
  let w' := snd (main demo_env update fresh) in
  lookup (fs w') (CURRENT_FILE demo_env) = lookup (fs fresh) (CURRENT_FILE demo_env)
  \/ exists s,
       lookup (fs w') (CURRENT_FILE demo_env)
       = Some (File (Json (pointer_record (PStr s) (VERSIONS_DIR demo_env // s))))
       /\ exists_ (fs w') (VERSIONS_DIR demo_env // s) = true
       /\ exists_ (fs w')
            (interpreter demo_env (VERSIONS_DIR demo_env // s // ".venv")) = true.
Proof.
  intros w'. apply (pointer_names_an_artifact demo_env update fresh w' (Ok 7%Z)).
  vm_compute. reflexivity.
Defined.

(** ** A run after a run *)


Lemma launch_ready (E : Env) (d : path) (w : World) :
  exists_ (fs w) (interpreter E (d // ".venv")) = true ->
  launch E d w
  = (Ok (returncode E (CmdRun (interpreter E (d // ".venv")))),
     {| fs := fs w;
        trace := trace w ++
          [EvSubprocess (CmdRun (interpreter E (d // ".venv")))] |}).
Proof.
  intros Hpy. unfold launch, ensure_venv, bind, get_fs. now rewrite Hpy.
Qed.




(** ** When the provider fails *)

(** X15. When GitHub cannot be reached, an update run ends in
    [URLError] after its first request: nothing is fetched, no child
    process is started, and the disk is as [ensure_dirs] left it, pointer
    included. *)
Theorem provider_unreachable (E : Env) (args : Args) (w w1 : World)
    (ptr : pointer) :
  no_update args = false ->
  ensure_dirs E w = (Ok tt, w1) ->
  pointer_of (fs w1) (CURRENT_FILE E) = Some ptr ->
  api_reply E (repo_api_url []) = None ->
  main E args w
  = (Raise URLError,
     {| fs := fs w1; trace := trace w ++ [EvHttpJson (repo_api_url [])] |}).
Proof.
  intros Hupd Hdirs Hptr Hreply.
  rewrite (main_reads_pointer E args w w1 ptr Hdirs Hptr).
  unfold decide_and_run. rewrite Hupd. cbn [negb].
  unfold get_default_branch. cbn [HARDCODE_DEFAULT_BRANCH].
  unfold http_json, bind, emit, raise. rewrite Hreply.
  now rewrite (ensure_dirs_silent E _ _ _ Hdirs).
Qed.

Lemma provider_unreachable_witness :
  let E := {| home := home demo_env; windows := false;
              api_reply := fun _ => None;
              zipball_reply := zipball_reply demo_env;
              returncode := returncode demo_env |} in
  main E update installed
  = (Raise URLError,
     {| fs := fs installed; trace := [EvHttpJson (repo_api_url [])] |}).
Proof.
  intros E.
  exact (provider_unreachable E update installed installed
           (Recorded (PStr "abc123") (VERSIONS_DIR E // "abc123"))
           eq_refl eq_refl eq_refl eq_refl).
Defined.

(** X16. A branch without commits: when the commit listing comes back
    empty, an update run ends in [RuntimeError] naming the branch, after
    its two requests and before anything is fetched or started; the disk
    is as [ensure_dirs] left it. *)
Theorem no_commits_aborts (E : Env) (args : Args) (w w1 : World)
    (ptr : pointer) (repo branch commits : pyval) :
  no_update args = false ->
  ensure_dirs E w = (Ok tt, w1) ->
  pointer_of (fs w1) (CURRENT_FILE E) = Some ptr ->
  api_reply E (repo_api_url []) = Some (Json repo) ->
  subscript repo (KStr "default_branch") = Ok branch ->
  api_reply E (repo_api_url [Lit "/commits?sha="; Fmt branch; Lit "&per_page=1"])
  = Some (Json commits) ->
  truthy commits = false ->
  main E args w
  = (Raise (RuntimeError [Lit "No commits found for branch '"; Fmt branch;
                          Lit "'."]),
     {| fs := fs w1;
        trace := trace w ++
          [EvHttpJson (repo_api_url []);
           EvHttpJson (repo_api_url [Lit "/commits?sha="; Fmt branch;
                                     Lit "&per_page=1"])] |}).
Proof.
  intros Hupd Hdirs Hptr Hrepo Hbranch Hcommits Hempty.
  rewrite (main_reads_pointer E args w w1 ptr Hdirs Hptr).
  unfold decide_and_run. rewrite Hupd. cbn [negb].
  unfold get_default_branch. cbn [HARDCODE_DEFAULT_BRANCH].
  unfold get_latest_commit_sha, http_json, bind, emit, raise, ret, lift.
  rewrite Hrepo, Hbranch. cbn [fs trace]. rewrite Hcommits, Hempty. cbn [negb].
  rewrite (ensure_dirs_silent E _ _ _ Hdirs). now rewrite <- app_assoc.
Qed.

Lemma no_commits_aborts_witness :
  let E := {| home := home demo_env; windows := false;
              api_reply := fun url =>
                match url with
                | [_; _; _; _] =>
                    Some (Json (PDict [("default_branch", PStr "main")]))
                | _ => Some (Json (PList []))
                end;
              zipball_reply := zipball_reply demo_env;
              returncode := returncode demo_env |} in
  fst (main E update installed)
  = Raise (RuntimeError [Lit "No commits found for branch '"; Fmt (PStr "main");
                         Lit "'."]).
Proof.
  intros E.
  rewrite (no_commits_aborts E update installed installed
             (Recorded (PStr "abc123") (VERSIONS_DIR E // "abc123"))
             (PDict [("default_branch", PStr "main")]) (PStr "main") (PList [])
             eq_refl eq_refl eq_refl eq_refl eq_refl eq_refl eq_refl).
  reflexivity.
Defined.

(** ** Runs that install nothing *)

Lemma pointer_of_recorded_file (n : node) (cf : path) (rev : pyval) (p : path) :
  pointer_of n cf = Some (Recorded rev p) ->
  exists d, lookup n cf = Some (File d).
Proof.
  unfold pointer_of. destruct (lookup n cf) as [[d|es]|]; try discriminate; eauto.
Qed.

(** X17. Already up to date: without [--force], with a pointer that
    records the latest revision and a path that is on disk, the run
    downloads, extracts and copies nothing, does not write the pointer,
    and leaves it as it was, however the run ends; and when the
    interpreter is there it prints one line, runs the application and
    returns its status with the disk unchanged. *)
Theorem up_to_date_run (E : Env) (args : Args) (w w1 w2 w3 : World)
    (rev : pyval) (p : path) (branch latest : pyval) :
  no_update args = false ->
  force args = false ->
  ensure_dirs E w = (Ok tt, w1) ->
  pointer_of (fs w1) (CURRENT_FILE E) = Some (Recorded rev p) ->
  get_default_branch E w1 = (Ok branch, w2) ->
  get_latest_commit_sha E branch w2 = (Ok latest, w3) ->
  py_eq rev latest = true ->
  exists_ (fs w3) p = true ->
  (forall r w', main E args w = (r, w') ->
     extends quiet w w'
     /\ lookup (fs w') (CURRENT_FILE E) = lookup (fs w) (CURRENT_FILE E))
  /\ (exists_ (fs w3) (interpreter E (p // ".venv")) = true ->
      main E args w
      = (Ok (returncode E (CmdRun (interpreter E (p // ".venv")))),
         {| fs := fs w3;
            trace := trace w3 ++
              [EvPrint [Lit "Already up-to-date at commit "; Fmt rev; Lit "."];
               EvSubprocess (CmdRun (interpreter E (p // ".venv")))] |})).
Proof.
  intros Hupd Hforce Hdirs Hptr Hbranch Hlatest Heq Hp.
  assert (Hmain : main E args w = already_up_to_date E rev (Some p) w3).
  { rewrite (main_decides E args w w1 w2 w3 _ branch latest
               Hupd Hdirs Hptr Hbranch Hlatest).
    unfold needs_install_spec, current_revision_differs, current_pointer_absent,
      current_artifact_missing_on_disk.
    now rewrite Hforce, Heq, Hp. }
  assert (Q1 : forall c, quiet (EvSubprocess c)) by (intros c; now split).
  assert (Q2 : forall u, quiet (EvHttpJson u)) by (intros u; now split).
  split.
  - intros r w' Hrun. rewrite Hmain in Hrun.
    unfold already_up_to_date, print in Hrun. unfold bind at 1, emit in Hrun.
    split.
    + apply (extends_trans _ w w1);
        [exact (extends_ensure_dirs E _ _ _ _ Hdirs)|].
      apply (extends_trans _ w1 w2);
        [exact (extends_get_default_branch E _ Q2 _ _ _ Hbranch)|].
      apply (extends_trans _ w2 w3);
        [exact (extends_get_latest_commit_sha E _ Q2 _ _ _ _ Hlatest)|].
      eapply extends_trans; [|exact (extends_launch E _ Q1 _ _ _ _ Hrun)].
      eexists. split; [reflexivity|]. repeat constructor.
    + destruct (pointer_of_recorded_file _ _ _ _ Hptr) as [d Hd].
      assert (K1 := keeps_ensure_dirs E _ _ _ Hdirs).
      assert (K2 := keeps_get_default_branch E _ _ _ Hbranch).
      assert (K3 := keeps_get_latest_commit_sha E _ _ _ _ Hlatest).
      unfold keeps in K1, K2, K3.
      rewrite <- K1, Hd.
      apply (launch_keeps_file E p _ _ _ _ _ Hrun). cbn.
      now rewrite K3, K2.
  - intros Hpy. rewrite Hmain.
    unfold already_up_to_date, print. unfold bind at 1, emit.
    rewrite launch_ready by exact Hpy. cbn. now rewrite <- app_assoc.
Qed.

Lemma up_to_date_run_witness :
  main demo_env update installed
  = (Ok 7%Z,
     {| fs := fs installed;
        trace :=
          [EvHttpJson (repo_api_url []);
           EvHttpJson (repo_api_url [Lit "/commits?sha="; Fmt (PStr "main");
                                     Lit "&per_page=1"]);
           EvPrint [Lit "Already up-to-date at commit "; Fmt (PStr "abc123");
                    Lit "."];
           EvSubprocess
             (CmdRun (interpreter demo_env
                        (VERSIONS_DIR demo_env // "abc123" // ".venv")))] |}).
Proof.
  exact (proj2 (up_to_date_run demo_env update installed installed
                  {| fs := fs installed;
                     trace := [EvHttpJson (repo_api_url [])] |}
                  {| fs := fs installed;
                     trace := [EvHttpJson (repo_api_url []);
                               EvHttpJson (repo_api_url
                                 [Lit "/commits?sha="; Fmt (PStr "main");
                                  Lit "&per_page=1"])] |}
                  (PStr "abc123") (VERSIONS_DIR demo_env // "abc123")
                  (PStr "main") (PStr "abc123")
                  eq_refl eq_refl eq_refl eq_refl eq_refl eq_refl eq_refl
                  eq_refl)
           eq_refl).
Defined.

(** X18. In skip-update mode the pointer is read and never written:
    however the run ends, no pointer write is logged and what is at the
    pointer's path is what was there before. *)
Theorem skip_update_reads_only (E : Env) (args : Args) (w w' : World)
    (r : result Z) :
  no_update args = true ->
  main E args w = (r, w') ->
  extends (fun ev => is_pointer_write ev = false) w w'
  /\ lookup (fs w') (CURRENT_FILE E) = lookup (fs w) (CURRENT_FILE E).
Proof.
  intros Hskip Hrun. split.
  - destruct (ensure_dirs E w) as [[[]|e] w1] eqn:Hdirs.
    + apply (extends_trans _ w w1);
        [exact (extends_ensure_dirs E _ _ _ _ Hdirs)|].
      rewrite (main_steps E args w w1 Hdirs) in Hrun.
      destruct (stored _ _) as [current|e];
        [|injection Hrun as _ <-; apply extends_refl].
      destruct (fields current) as [[sha cpath]|e];
        [|injection Hrun as _ <-; apply extends_refl].
      unfold decide_and_run in Hrun. rewrite Hskip in Hrun. cbn [negb] in Hrun.
      unfold bind at 1, get_fs in Hrun.
      destruct cpath as [p|]; [|injection Hrun as _ <-; apply extends_refl].
      destruct (negb (exists_ (fs w1) p));
        [injection Hrun as _ <-; apply extends_refl|].
      exact (extends_launch E _ (fun _ => eq_refl) _ _ _ _ Hrun).
    + rewrite (main_dirs_fail E args w w1 e Hdirs) in Hrun.
      injection Hrun as _ <-. exact (extends_ensure_dirs E _ _ _ _ Hdirs).
  - destruct r as [code|e]; [|exact (main_raise_keeps E args w w' e Hrun)].
    destruct (main_ok_inv E args w w' code Hrun)
      as (w1 & current & sha & cpath & Hdirs & Hst & Hf & Hdecide).
    destruct (decide_and_run_ok E args sha cpath w1 w' code Hdecide)
      as [(branch & latest & w3 & _ & _ & Hupd)
         |(p & w3 & -> & Hlaunch & Hfs & _)]; [congruence|].
    assert (Hfile := fields_path_file _ _ _ _ _ Hst Hf).
    rewrite <- (keeps_ensure_dirs E _ _ _ Hdirs). rewrite Hfile.
    apply (launch_keeps_file E p _ _ _ _ _ Hlaunch). now rewrite Hfs.
Qed.

Lemma skip_update_reads_only_witness :
  extends (fun ev => is_pointer_write ev = false) installed
    (snd (main demo_env skip_update installed))
  /\ lookup (fs (snd (main demo_env skip_update installed)))
       (CURRENT_FILE demo_env)
     = lookup (fs installed) (CURRENT_FILE demo_env).
Proof.
  apply (skip_update_reads_only demo_env skip_update installed _ (Ok 7%Z)).
  - reflexivity.
  - vm_compute. reflexivity.
Defined.

(** ** Pointer files that are JSON but not a record *)

(** X19. A pointer file holding an empty JSON value ([{}], [[]], [null],
    [0], [false] or an empty string) is taken for no pointer at all:
    with [--no-update] the run ends in [SystemExit] with the
    no-installed-version message, and an update run installs the latest
    revision. *)
Theorem empty_record_is_absent (E : Env) (args : Args) (w w1 : World)
    (v : pyval) :
  ensure_dirs E w = (Ok tt, w1) ->
  lookup (fs w1) (CURRENT_FILE E) = Some (File (Json v)) ->
  truthy v = false ->
  (no_update args = true ->
   main E args w = (Raise (SystemExit no_installed_version), w1))
  /\ (no_update args = false ->
      forall branch latest w2 w3,
        get_default_branch E w1 = (Ok branch, w2) ->
        get_latest_commit_sha E branch w2 = (Ok latest, w3) ->
        main E args w = install_latest E branch latest w3).
Proof.
  intros Hdirs Hcur Hfalsy.
  assert (Hmain : main E args w = decide_and_run E args PNone None w1).
  { rewrite (main_steps E args w w1 Hdirs). unfold stored. rewrite Hcur.
    unfold fields. now rewrite Hfalsy. }
  rewrite Hmain. unfold decide_and_run. split.
  - intros ->. reflexivity.
  - intros -> branch latest w2 w3 Hbranch Hlatest. cbn [negb].
    rewrite (bind_ok _ _ _ _ _ Hbranch), (bind_ok _ _ _ _ _ Hlatest).
    unfold bind, get_fs. now rewrite needs_install_no_path.
Qed.

Lemma empty_record_is_absent_witness :
  let w := {| fs := Dir [("home", Dir [("u", Dir [("Documents",
                 Dir [("Spectra Processing",
                   Dir [("Executable", Dir []);
                        ("App", Dir [("versions", Dir []);
                                     ("current.json",
                                      File (Json (PDict [])))])])])])])];
              trace := [] |} in
  main demo_env skip_update w = (Raise (SystemExit no_installed_version), w).
Proof.
  intros w.
  exact (proj1 (empty_record_is_absent demo_env skip_update w w (PDict [])
                  eq_refl eq_refl eq_refl) eq_refl).
Defined.

(** X20. A pointer file holding JSON that is not a record of the two
    fields stops the run before anything else is done, in either mode:
    with [KeyError] when it is an object without ["sha"] or without
    ["path"], with [TypeError] when it is another non-empty value or
    when ["path"] is not a string.  Nothing is added to the trace and
    the disk is as [ensure_dirs] left it. *)
Theorem malformed_record_aborts (E : Env) (args : Args) (w w1 : World)
    (v : pyval) :
  ensure_dirs E w = (Ok tt, w1) ->
  lookup (fs w1) (CURRENT_FILE E) = Some (File (Json v)) ->
  truthy v = true ->
  trace w1 = trace w
  /\ (forall items,
        v = PDict items ->
        assoc "sha" items = None \/ assoc "path" items = None ->
        main E args w = (Raise KeyError, w1))
  /\ (forall items rev x,
        v = PDict items ->
        assoc "sha" items = Some rev ->
        assoc "path" items = Some x ->
        (forall s, x <> PStr s) ->
        main E args w = (Raise TypeError, w1))
  /\ ((forall items, v <> PDict items) ->
      main E args w = (Raise TypeError, w1)).
Proof.
  intros Hdirs Hcur Htruthy.
  assert (Hmain : main E args w
                  = match fields v with
                    | Raise e => (Raise e, w1)
                    | Ok (sha, cpath) => decide_and_run E args sha cpath w1
                    end).
  { rewrite (main_steps E args w w1 Hdirs). unfold stored. now rewrite Hcur. }
  rewrite Hmain. unfold fields. rewrite Htruthy.
  split; [exact (ensure_dirs_silent E _ _ _ Hdirs)|]. repeat split.
  - intros items -> [Hsha|Hpath]; cbn [subscript].
    + now rewrite Hsha.
    + rewrite Hpath. now destruct (assoc "sha" items).
  - intros items rev x -> Hsha Hpath Hx. cbn [subscript].
    rewrite Hsha, Hpath. destruct x as [| | |s| |]; try reflexivity.
    now destruct (Hx s).
  - intros Hnot. destruct v as [| | | | |items]; try reflexivity.
    now destruct (Hnot items).
Qed.

Lemma malformed_record_aborts_witness :
  let w := {| fs := Dir [("home", Dir [("u", Dir [("Documents",
                 Dir [("Spectra Processing",
                   Dir [("Executable", Dir []);
                        ("App", Dir [("versions", Dir []);
                                     ("current.json",
                                      File (Json (PDict
                                        [("sha", PStr "abc123")])))])])])])])];
              trace := [] |} in
  main demo_env update w = (Raise KeyError, w).
Proof.
  intros w.
  destruct (malformed_record_aborts demo_env update w w
              (PDict [("sha", PStr "abc123")]) eq_refl eq_refl eq_refl)
    as (_ & Hkey & _).
  apply (Hkey [("sha", PStr "abc123")] eq_refl). now right.
Defined.
